(** * bon-scanner: a shallow embedding of the receipt pipeline in src/app.rs

    The Rust program keeps one [App] value and mutates it in the event loop
    of [App::run].  Here every handler becomes a function from the state to
    the new state together with the application events it queues; the
    persistence layer (sqlite) is a record of tables.

    Strings are Stdlib [string]s (ASCII); Rust's byte length is [length].
    Prices are IEEE binary64 values, modelled with the primitive floats of
    [Stdlib.Floats]. *)

From Stdlib Require Import Bool Arith ZArith Lia List String Ascii.
From Stdlib Require Import Floats.
Import ListNotations.
Open Scope string_scope.
Open Scope list_scope.
Open Scope nat_scope.

(* ------------------------------------------------------------------ *)
(** ** Characters and string helpers *)

Module Chars.

Definition is_ascii_digit (c : ascii) : bool :=
  let n := nat_of_ascii c in (48 <=? n) && (n <=? 57).

Definition is_alpha (c : ascii) : bool :=
  let n := nat_of_ascii c in
  ((65 <=? n) && (n <=? 90)) || ((97 <=? n) && (n <=? 122)).

(** Regex class [\w] on ASCII input: letters, digits and '_'. *)
Definition is_word (c : ascii) : bool :=
  is_alpha c || is_ascii_digit c || Ascii.eqb c "_"%char.

(** Regex class [\w] on the two-byte UTF-8 characters C3 80 .. C3 BF
    (U+00C0 .. U+00FF): every one but U+00D7 (C3 97) and U+00F7 (C3 B7) is a
    letter; among them the umlauts and sharp s of the OCR whitelist. This
    predicate reads the second byte. *)
Definition is_latin1_letter_tail (b : ascii) : bool :=
  let n := nat_of_ascii b in
  (128 <=? n) && (n <=? 191) && negb (n =? 151) && negb (n =? 183).

(** [char::is_whitespace] on ASCII input: '\t' '\n' '\x0B' '\x0C' '\r' ' '. *)
Definition is_whitespace (c : ascii) : bool :=
  let n := nat_of_ascii c in ((9 <=? n) && (n <=? 13)) || (n =? 32).

Definition lower (c : ascii) : ascii :=
  let n := nat_of_ascii c in
  if (65 <=? n) && (n <=? 90) then ascii_of_nat (n + 32) else c.

End Chars.

Fixpoint str_of_list (l : list ascii) : string :=
  match l with [] => EmptyString | c :: r => String c (str_of_list r) end.

Definition chars (s : string) : list ascii := list_ascii_of_string s.

(** [str::replace(from_char, to_char)] for one-character patterns. *)
Definition replace_char (a b : ascii) (s : string) : string :=
  str_of_list (map (fun c => if Ascii.eqb c a then b else c) (chars s)).

(** [str::contains] with a string pattern (the empty pattern is contained
    in every string). *)
Definition contains (s pat : string) : bool :=
  match pat with
  | EmptyString => true
  | _ => existsb (fun k => String.prefix pat (substring k (length s) s))
                 (seq 0 (S (length s)))
  end.

(** [str::split(sep)] for a one-character separator: the pieces between
    the separators, including empty ones ("a," gives ["a"; ""]). *)
Fixpoint split_rev (sep : ascii) (cur : list ascii) (l : list ascii)
  : list string :=
  match l with
  | [] => [str_of_list (rev cur)]
  | c :: r =>
      if Ascii.eqb c sep then str_of_list (rev cur) :: split_rev sep [] r
      else split_rev sep (c :: cur) r
  end.

Definition split (sep : ascii) (s : string) : list string :=
  split_rev sep [] (chars s).

(** [str::trim]: drop leading and trailing whitespace. *)
Fixpoint drop_ws (l : list ascii) : list ascii :=
  match l with
  | c :: r => if Chars.is_whitespace c then drop_ws r else l
  | [] => []
  end.

Definition trim (s : string) : string :=
  str_of_list (rev (drop_ws (rev (drop_ws (chars s))))).

(* ------------------------------------------------------------------ *)
(** ** [f64] and Rust's [str::parse::<f64>]

    [parse_f64] follows the grammar of [core::num::dec2flt]:
    [Sign? ("inf" | "infinity" | "nan" | Number)] with the keywords
    case-insensitive, [Number ::= (Digit+ | Digit+ '.' Digit* |
    Digit* '.' Digit+) (('e'|'E') Sign? Digit+)?]; no whitespace.  The
    decimal value is rounded to nearest, ties to even. *)

Module F64.

Definition f64 := float.

(** [Iterator::sum] over [f64] folds [+] from [-0.0]. *)
Definition sum (l : list f64) : f64 := fold_left PrimFloat.add l (-0)%float.

Fixpoint digits_val (acc : Z) (l : list ascii) : Z :=
  match l with
  | [] => acc
  | c :: r => digits_val (acc * 10 + Z.of_nat (nat_of_ascii c - 48))%Z r
  end.

(** Longest prefix of decimal digits, and the rest. *)
Fixpoint take_digits (l : list ascii) : list ascii * list ascii :=
  match l with
  | c :: r =>
      if Chars.is_ascii_digit c then
        let '(d, rest) := take_digits r in (c :: d, rest)
      else ([], l)
  | [] => ([], [])
  end.

(** Exponent part: [None] when it is malformed. *)
Definition parse_exp (l : list ascii) : option Z :=
  match l with
  | [] => Some 0%Z
  | e :: r =>
      if Ascii.eqb (Chars.lower e) "e"%char then
        let '(neg, r') :=
          match r with
          | s :: r'' =>
              if Ascii.eqb s "-"%char then (true, r'')
              else if Ascii.eqb s "+"%char then (false, r'') else (false, r)
          | [] => (false, r)
          end in
        let '(d, rest) := take_digits r' in
        match d, rest with
        | _ :: _, [] => Some (if neg then - digits_val 0 d else digits_val 0 d)%Z
        | _, _ => None
        end
      else None
  end.

(** Unsigned number: mantissa digits value [m] and decimal exponent [e],
    the literal being [m * 10^e]. *)
Definition parse_number (l : list ascii) : option (Z * Z) :=
  let '(ip, r) := take_digits l in
  let '(fp, r') :=
    match r with
    | c :: r1 => if Ascii.eqb c "."%char then take_digits r1 else ([], r)
    | [] => ([], r)
    end in
  if (List.length ip =? 0) && (List.length fp =? 0) then None
  else
    match parse_exp r' with
    | Some e => Some (digits_val 0 (ip ++ fp), e - Z.of_nat (List.length fp))%Z
    | None => None
    end.

(** Round [n / d] (both positive) to the nearest binary64, ties to even. *)
Definition round_ratio (n d : Z) : f64 :=
  let k0 := (Z.log2 n - Z.log2 d - 53)%Z in
  let q0 k := if (0 <=? k)%Z then (n / (d * 2 ^ k))%Z else (n * 2 ^ (- k) / d)%Z in
  let k1 := if (2 ^ 53 <=? q0 k0)%Z then (k0 + 1)%Z else k0 in
  let k := Z.max k1 (-1074) in
  let num := if (0 <=? k)%Z then n else (n * 2 ^ (- k))%Z in
  let den := if (0 <=? k)%Z then (d * 2 ^ k)%Z else d in
  let q := (num / den)%Z in
  let r := (num mod den)%Z in
  let q' := if (2 * r >? den)%Z then (q + 1)%Z
            else if (2 * r =? den)%Z then (if Z.odd q then q + 1 else q)%Z
            else q in
  if (1024 <=? k + Z.log2 q')%Z then PrimFloat.infinity
  else PrimFloat.ldshiftexp (PrimFloat.of_uint63 (Uint63.of_Z q'))
         (Uint63.of_Z (k + FloatOps.shift)).

(** Number of decimal digits of a positive [m] ([fuel] bounds it). *)
Fixpoint ndigits (fuel : nat) (m : Z) : Z :=
  match fuel with
  | O => 0
  | S f => if (m <? 10)%Z then 1%Z else (1 + ndigits f (m / 10))%Z
  end.

Definition decimal_value (m e : Z) : f64 :=
  let nd := ndigits (Z.to_nat (Z.log2 m + 1)) m in
  if (m =? 0)%Z then 0%float
  else if (310 <? nd + e)%Z then PrimFloat.infinity
  else if (nd + e <? -330)%Z then 0%float
  else if (0 <=? e)%Z then round_ratio (m * 10 ^ e) 1
  else round_ratio m (10 ^ (- e)).

Definition keyword_is (kw : string) (l : list ascii) : bool :=
  String.eqb (str_of_list (map Chars.lower l)) kw.

Definition parse_unsigned (l : list ascii) : option f64 :=
  if keyword_is "inf" l || keyword_is "infinity" l then Some PrimFloat.infinity
  else if keyword_is "nan" l then Some PrimFloat.nan
  else match parse_number l with
       | Some (m, e) => Some (decimal_value m e)
       | None => None
       end.

Definition parse_f64 (s : string) : option f64 :=
  match chars s with
  | c :: r =>
      if Ascii.eqb c "-"%char then option_map PrimFloat.opp (parse_unsigned r)
      else if Ascii.eqb c "+"%char then parse_unsigned r
      else parse_unsigned (c :: r)
  | [] => None
  end.

End F64.

(* ------------------------------------------------------------------ *)
(** ** OCR lines ([OcrEntry], [OcrType]) and the classifier of
    [App::perform_ocr] *)

Inductive OcrType := Date | Entry | Sum.

Definition OcrType_eqb (a b : OcrType) : bool :=
  match a, b with
  | Date, Date | Entry, Entry | Sum, Sum => true
  | _, _ => false
  end.

Record OcrEntry := mkOcrEntry { name : string; ocr_type : OcrType }.

Module Classifier.

(** [line.len() > 1] *)
Definition long_enough (line : string) : bool := 1 <? String.length line.

(** Regex [" \w$"]: when the line ends with a space and one word
    character, [line[..found.start()]] drops both. Rust's [\w] is
    Unicode: the word character is one ASCII byte (letter, digit, '_') or
    a two-byte Latin-1 letter C3 xx, such as the umlauts and sharp s; word characters
    of other scripts, which the OCR whitelist of [perform_ocr] rules
    out, are not recognised here. *)
Definition strip_single (line : string) : string :=
  match rev (chars line) with
  | w :: sp :: r =>
      if Chars.is_word w && Ascii.eqb sp " "%char then str_of_list (rev r)
      else match r with
           | sp' :: r' =>
               if Chars.is_latin1_letter_tail w && Ascii.eqb sp "195"%char
                  && Ascii.eqb sp' " "%char
               then str_of_list (rev r') else line
           | [] => line
           end
  | _ => line
  end.

(** The text Tesseract can return under the [tessedit_char_whitelist] of
    [perform_ocr] (ASCII letters and digits, the umlauts and sharp s (C3 A4, C3 B6,
    C3 BC, C3 84, C3 96, C3 9C, C3 9F), the euro sign (E2 82 AC) and
    ". , &-%$@:" with the space),
    lines separated by '\n', as UTF-8 bytes. On such text every regex
    class of the classifier ([\w], [\d], [trim]'s whitespace) reads the
    same here as in Rust's Unicode versions. *)
Definition whitelisted_ascii (c : ascii) : bool :=
  Chars.is_alpha c || Chars.is_ascii_digit c || existsb (Ascii.eqb c) (chars "., &-%$@:").

Definition is_umlaut_tail (b : ascii) : bool :=
  existsb (Ascii.eqb b) ["164"; "182"; "188"; "132"; "150"; "156"; "159"]%char.

Fixpoint ocr_text_ok (l : list ascii) : bool :=
  match l with
  | [] => true
  | c :: r =>
      if Ascii.eqb c "010"%char || whitelisted_ascii c then ocr_text_ok r
      else if Ascii.eqb c "195"%char then
        match r with b :: r' => is_umlaut_tail b && ocr_text_ok r' | [] => false end
      else if Ascii.eqb c "226"%char then
        match r with
        | b1 :: b2 :: r' => Ascii.eqb b1 "130"%char && Ascii.eqb b2 "172"%char && ocr_text_ok r'
        | _ => false
        end
      else false
  end.

(** [line.split(" ")] and its last element [elems[elems.len() - 1]]
    ([split] never yields an empty vector). *)
Definition last_elem (line : string) : string :=
  last (split " "%char line) EmptyString.

(** Regex [\d] *)
Definition has_digit (s : string) : bool := existsb Chars.is_ascii_digit (chars s).

(** Regex [[,.:-]] *)
Definition is_delim (c : ascii) : bool :=
  Ascii.eqb c ","%char || Ascii.eqb c "."%char
  || Ascii.eqb c ":"%char || Ascii.eqb c "-"%char.

Definition has_delim (s : string) : bool := existsb is_delim (chars s).

Definition blacklisted (blacklist : list string) (line : string) : bool :=
  existsb (fun elem => contains line elem) blacklist.

(** The iterator chain of [perform_ocr] from [ocr_text.split('\n')] to
    the [collect]. *)
Definition classify (ocr_text : string) (blacklist : list string)
  : list OcrEntry :=
  map (fun line => mkOcrEntry line Entry)
    (filter (fun line => negb (blacklisted blacklist line))
      (filter has_delim
        (filter (fun line => has_digit (last_elem line))
          (map strip_single
            (filter long_enough
              (map trim (split "010"%char ocr_text))))))).

End Classifier.

(* ------------------------------------------------------------------ *)
(** ** Field extractors [App::extract_date], [extract_name],
    [extract_price] *)

Module Extract.

Fixpoint suffixes (l : list ascii) : list (list ascii) :=
  match l with [] => [[]] | _ :: r => l :: suffixes r end.

(** Leftmost match of a pattern given by a matcher on suffixes. *)
Fixpoint find_first {A} (m : list ascii -> option A) (ls : list (list ascii))
  : option A :=
  match ls with
  | [] => None
  | l :: r => match m l with Some x => Some x | None => find_first m r end
  end.

Definition is_dot_comma (c : ascii) : bool :=
  Ascii.eqb c "."%char || Ascii.eqb c ","%char.

(** Regex [\d{2}[\.,]\d{2}[\.,]\d{4}] anchored at the start of [l]. *)
Definition date_at (l : list ascii) : option string :=
  match l with
  | d1 :: d2 :: s1 :: d3 :: d4 :: s2 :: d5 :: d6 :: d7 :: d8 :: _ =>
      if forallb Chars.is_ascii_digit [d1; d2; d3; d4; d5; d6; d7; d8]
         && is_dot_comma s1 && is_dot_comma s2
      then Some (str_of_list [d1; d2; s1; d3; d4; s2; d5; d6; d7; d8])
      else None
  | _ => None
  end.

Definition extract_date (line : string) : option string :=
  find_first date_at (suffixes (chars line)).

(** [line.rsplit_once(' ').map(|name| name.0)]: everything before the
    last space. *)
Definition extract_name (line : string) : option string :=
  let fix go (l : list ascii) : option (list ascii) :=
    match l with
    | [] => None
    | c :: r =>
        match go r with
        | Some pre => Some (c :: pre)
        | None => if Ascii.eqb c " "%char then Some [] else None
        end
    end in
  option_map str_of_list (go (chars line)).

(** Regex [(\d+[.,]\d+)] anchored at the start of [l]: both digit runs
    are greedy; backtracking the first run cannot help since the
    character after a shorter run is a digit. *)
Definition price_at (l : list ascii) : option string :=
  let '(d1, r) := F64.take_digits l in
  match d1, r with
  | _ :: _, c :: r' =>
      if is_dot_comma c then
        match F64.take_digits r' with
        | ((_ :: _) as d2, _) => Some (str_of_list (d1 ++ c :: d2))
        | _ => None
        end
      else None
  | _, _ => None
  end.

Definition extract_price (line : string) : option F64.f64 :=
  match find_first price_at (suffixes (chars line)) with
  | Some m => F64.parse_f64 (replace_char ","%char "."%char m)
  | None => None
  end.

End Extract.

(* ------------------------------------------------------------------ *)
(** ** [ratatui::widgets::ListState] and the lists of [App]

    Only the selected index of a [ListState] matters here.  [select_next]
    and [select_previous] saturate. *)

Record SelList (A : Type) := mkSelList { items : list A; selected : option nat }.
Arguments mkSelList {A}.
Arguments items {A}.
Arguments selected {A}.

Definition select_first {A} (l : SelList A) : SelList A := mkSelList (items l) (Some 0).
Definition select_next {A} (l : SelList A) : SelList A :=
  mkSelList (items l) (Some (match selected l with Some i => S i | None => 0 end)).
Definition select_previous {A} (l : SelList A) : SelList A :=
  mkSelList (items l) (Some (match selected l with Some i => i - 1 | None => 0 end)).
Definition set_items {A} (l : SelList A) (xs : list A) : SelList A :=
  mkSelList xs (selected l).

(** [Vec::get_mut(i)] followed by an update of the element. *)
Fixpoint update_nth {A} (i : nat) (f : A -> A) (l : list A) : list A :=
  match l, i with
  | [], _ => []
  | x :: r, 0 => f x :: r
  | x :: r, S j => x :: update_nth j f r
  end.

(** [Vec::remove(i)]: panics ([None]) when [i >= len]. *)
Fixpoint remove_nth {A} (i : nat) (l : list A) : option (list A) :=
  match l, i with
  | [], _ => None
  | _ :: r, 0 => Some r
  | x :: r, S j => option_map (cons x) (remove_nth j r)
  end.

(* ------------------------------------------------------------------ *)
(** ** [App::ocr_mark_date] and [App::ocr_mark_sum] *)

Definition count_type (t : OcrType) (l : list OcrEntry) : nat :=
  List.length (filter (fun e => OcrType_eqb (ocr_type e) t) l).

Definition ocr_mark (t : OcrType) (ocr_list : SelList OcrEntry) : SelList OcrEntry :=
  let dates := count_type t (items ocr_list) in
  match selected ocr_list with
  | Some i =>
      match nth_error (items ocr_list) i with
      | Some entry =>
          if (dates =? 0) && OcrType_eqb (ocr_type entry) Entry then
            set_items ocr_list
              (update_nth i (fun e => mkOcrEntry (name e) t) (items ocr_list))
          else if OcrType_eqb (ocr_type entry) t then
            set_items ocr_list
              (update_nth i (fun e => mkOcrEntry (name e) Entry) (items ocr_list))
          else ocr_list
      | None => ocr_list
      end
  | None => ocr_list
  end.

Definition ocr_mark_date := ocr_mark Date.
Definition ocr_mark_sum := ocr_mark Sum.

(* ------------------------------------------------------------------ *)
(** ** The sqlite database of [database.rs]

    Each table is a list of rows in rowid order, which is the order a
    [SELECT] without [ORDER BY] yields them in; each [AUTOINCREMENT] key
    has its sequence counter ([sqlite_sequence]).  The INSERT statements
    are built with [format!] around ['{text}'] and run with
    [Connection::execute]: when the text is one SQL string literal (no
    quote, no NUL byte, see [sql_literal]) the row stores it verbatim,
    which is what [add_blacklist_entry], [create_category] and
    [create_product] below do.  Any other text makes a different statement
    (a syntax error, or more rows than one); the handlers that insert text
    typed by the user check [sql_literal] and hand such a statement to
    sqlite, see [execute_sql]. *)

Module Database.

(** [database::Entry]: a draft item and a row of a listed bon. *)
Record Entry := mkEntry { category : string; product : string; price : F64.f64 }.

(** [database::Category] (its [category] field is [category_name] here). *)
Record Category := mkCategory { category_id : Z; category_name : string }.

(** Modelled from the spec: the product rows that [get_products] returns
    ([ProductCatalogEntry { id, category_id, name }]); the Rust struct is
    not in src/ (the code reads its fields [category_id] and [product]). *)
Record Product := mkProduct
  { product_id : Z; product_category_id : Z; product_name : string }.

Record BonRow := mkBonRow { bon_id : Z; bon_date : string; bon_price : F64.f64 }.

Record EntryRow := mkEntryRow
  { entry_id : Z; entry_bon_id : Z; entry_product_id : Z; entry_price : F64.f64 }.

Record Database := mkDatabase
  { bons : list BonRow; bon_seq : Z; hidden : list Z;
    blacklist : list string;
    categories : list Category; category_seq : Z;
    products : list Product; product_seq : Z;
    entries : list EntryRow; entry_seq : Z;
    processed : list string }.

Definition empty : Database := mkDatabase [] 0 [] [] [] 0 [] 0 [] 0 [].

(** A text spliced into ['{text}'] is one SQL string literal when it has
    no quote, which would end the literal, and no NUL byte, which
    [Connection::execute] refuses (its C string would be cut there). *)
Definition sql_literal (text : string) : bool :=
  forallb (fun c => negb (Ascii.eqb c "'"%char || Ascii.eqb c "000"%char)) (chars text).

(** The statements of [add_blacklist_entry] and [create_category]. *)
Definition add_blacklist_entry_query (blacklist_entry : string) : string :=
  ("INSERT INTO blacklist (blacklistEntry) VALUES ('" ++ blacklist_entry ++ "')")%string.
Definition create_category_query (category : string) : string :=
  ("INSERT INTO categories (category) VALUES ('" ++ category ++ "')")%string.

Definition add_blacklist_entry (db : Database) (e : string) : Database :=
  {| bons := bons db; bon_seq := bon_seq db; hidden := hidden db;
     blacklist := blacklist db ++ [e];
     categories := categories db; category_seq := category_seq db;
     products := products db; product_seq := product_seq db;
     entries := entries db; entry_seq := entry_seq db; processed := processed db |}.

(** The rows the INSERTs add.  [create_bon] and [create_entry] write the
    price as ['{price}'], stored as TEXT when it is not finite (see
    [get_bons]); [add_blacklist_entry] and [create_category] are the
    effect of their statement when the text is one SQL string literal
    ([sql_literal]), [create_category] and [create_product] as called by
    [import_bon] likewise ([import_literals]). *)
Definition create_bon (db : Database) (date : string) (price : F64.f64) : Database :=
  let id := (bon_seq db + 1)%Z in
  {| bons := bons db ++ [mkBonRow id date price]; bon_seq := id; hidden := hidden db;
     blacklist := blacklist db;
     categories := categories db; category_seq := category_seq db;
     products := products db; product_seq := product_seq db;
     entries := entries db; entry_seq := entry_seq db; processed := processed db |}.

Definition create_category (db : Database) (category : string) : Database :=
  let id := (category_seq db + 1)%Z in
  {| bons := bons db; bon_seq := bon_seq db; hidden := hidden db;
     blacklist := blacklist db;
     categories := categories db ++ [mkCategory id category]; category_seq := id;
     products := products db; product_seq := product_seq db;
     entries := entries db; entry_seq := entry_seq db; processed := processed db |}.

Definition create_entry (db : Database) (bon_id product_id : Z) (price : F64.f64)
  : Database :=
  let id := (entry_seq db + 1)%Z in
  {| bons := bons db; bon_seq := bon_seq db; hidden := hidden db;
     blacklist := blacklist db;
     categories := categories db; category_seq := category_seq db;
     products := products db; product_seq := product_seq db;
     entries := entries db ++ [mkEntryRow id bon_id product_id price];
     entry_seq := id; processed := processed db |}.

Definition create_product (db : Database) (category_id : Z) (product : string)
  : Database :=
  let id := (product_seq db + 1)%Z in
  {| bons := bons db; bon_seq := bon_seq db; hidden := hidden db;
     blacklist := blacklist db;
     categories := categories db; category_seq := category_seq db;
     products := products db ++ [mkProduct id category_id product]; product_seq := id;
     entries := entries db; entry_seq := entry_seq db; processed := processed db |}.

Definition get_blacklist (db : Database) : list string := blacklist db.
Definition get_categories (db : Database) : list Category := categories db.

(** [SELECT MAX(..)], read as 0 when the table is empty. *)
Definition max_id (ids : list Z) : Z := fold_left Z.max ids 0%Z.

Definition get_last_bon_id (db : Database) : Z := max_id (map bon_id (bons db)).

(** Modelled from the spec: [get_products] ([list_products]), missing from
    database.rs. *)
Definition get_products (db : Database) : list Product := products db.

(** Modelled from the spec: [get_last_category_id] and
    [get_last_product_id], missing from database.rs; the spec has the
    commit "create then fetch the newly assigned id", the id being the
    largest key as in [get_last_bon_id]. *)
Definition get_last_category_id (db : Database) : Z :=
  max_id (map category_id (categories db)).
Definition get_last_product_id (db : Database) : Z :=
  max_id (map product_id (products db)).

(** Modelled from the spec: [add_processed_entry] ([mark_processed]),
    [get_processed] and [hide_bon] ([hide_receipt]: a soft-delete flag),
    missing from database.rs; [get_bons] of database.rs does not read the
    flag. *)
Definition add_processed_entry (db : Database) (file_name : string) : Database :=
  {| bons := bons db; bon_seq := bon_seq db; hidden := hidden db;
     blacklist := blacklist db;
     categories := categories db; category_seq := category_seq db;
     products := products db; product_seq := product_seq db;
     entries := entries db; entry_seq := entry_seq db;
     processed := processed db ++ [file_name] |}.
Definition get_processed (db : Database) : list string := processed db.
Definition hide_bon (db : Database) (id : Z) : Database :=
  {| bons := bons db; bon_seq := bon_seq db; hidden := id :: hidden db;
     blacklist := blacklist db;
     categories := categories db; category_seq := category_seq db;
     products := products db; product_seq := product_seq db;
     entries := entries db; entry_seq := entry_seq db; processed := processed db |}.

(** The entries [get_bons] reads for the bon [b]: [entries] joined with
    [products] and [categories], [WHERE bonId = b]. *)
Definition bon_entry_rows (db : Database) (b : Z) : list EntryRow :=
  filter (fun e =>
            Z.eqb (entry_bon_id e) b
            && existsb (fun p => Z.eqb (product_id p) (entry_product_id e)
                                 && existsb (fun c => Z.eqb (category_id c) (product_category_id p))
                                      (categories db))
                 (products db))
    (entries db).

(** [get_bons]: every row of [bons], no row left out (database.rs has no
    hidden flag), each returned as [Bon::new(date, price)], so with
    [bon_id] 0: the row id read into the first [Bon] is not copied.  The
    joined entries of each bon are read but not kept here (only the
    summary of [calculate_summary], not modelled, uses them).  [create_bon]
    and [create_entry] write the price as ['{price}']: a non-finite [f64]
    becomes the TEXT 'inf', '-inf' or 'NaN', and [row.read::<f64>] panics
    on it ([None]). *)
Definition get_bons (db : Database) : option (list BonRow) :=
  let readable (p : F64.f64) := PrimFloat.is_finite p in
  if forallb (fun b => readable (bon_price b)
                       && forallb (fun e => readable (entry_price e))
                            (bon_entry_rows db (bon_id b)))
       (bons db)
  then Some (map (fun b => mkBonRow 0 (bon_date b) (bon_price b)) (bons db))
  else None.

End Database.

(* ------------------------------------------------------------------ *)
(** ** [App]: states, events and the handlers of app.rs *)

Inductive AppState :=
  Blacklist | Category | ConvertBon | EditBonPrice | EditCategory
| EditName | EditPrice | Home | Import | OCR.

Inductive AppEvent :=
  CalculateSummary | ConvertToBon | GoBlacklistState | GoCategoryState
| GoConvertBonState | GoEditBonPriceState | GoEditCategoryState
| GoEditNameState | GoEditPriceState | GoHomeState | GoImportState
| GoOcrState | HideItem | ImportBon | NextItem | OcrMarkDate | OcrMarkSum
| PerformOCR | PreviousItem | UpdateFromDatabase | Quit.

(** The key codes [handle_key_events] tells apart. *)
Inductive Key := KEnter | KEsc | KChar (c : ascii) | KOther (code : nat).

Record NewBonList := mkNewBonList
  { date : string;
    bon_items : SelList Database.Entry;   (* [items] with its [state] *)
    price_calc : F64.f64; price_eq : bool; price_ocr : F64.f64 }.

(** [App] without [bon_summary] (a [HashMap] iteration, not modelled) and
    without the event channel, which [run] below threads explicitly. *)
Record App := mkApp
  { bon_list : SelList Database.BonRow;
    category_list : SelList Database.Category;
    current_state : AppState;
    database : Database.Database;
    edit_field : list string;            (* [TextArea::lines()] *)
    import_list : SelList string;
    import_path : string;
    new_bon_list : NewBonList;
    ocr_blacklist : list string;
    ocr_list : SelList OcrEntry;
    ocr_file : string;
    running : bool }.

Definition set_state (a : App) (s : AppState) : App :=
  mkApp (bon_list a) (category_list a) s (database a) (edit_field a)
    (import_list a) (import_path a) (new_bon_list a) (ocr_blacklist a)
    (ocr_list a) (ocr_file a) (running a).
Definition set_database (a : App) (db : Database.Database) : App :=
  mkApp (bon_list a) (category_list a) (current_state a) db (edit_field a)
    (import_list a) (import_path a) (new_bon_list a) (ocr_blacklist a)
    (ocr_list a) (ocr_file a) (running a).
Definition set_edit_field (a : App) (ef : list string) : App :=
  mkApp (bon_list a) (category_list a) (current_state a) (database a) ef
    (import_list a) (import_path a) (new_bon_list a) (ocr_blacklist a)
    (ocr_list a) (ocr_file a) (running a).
Definition set_new_bon_list (a : App) (nb : NewBonList) : App :=
  mkApp (bon_list a) (category_list a) (current_state a) (database a)
    (edit_field a) (import_list a) (import_path a) nb (ocr_blacklist a)
    (ocr_list a) (ocr_file a) (running a).
Definition set_ocr_list (a : App) (l : SelList OcrEntry) : App :=
  mkApp (bon_list a) (category_list a) (current_state a) (database a)
    (edit_field a) (import_list a) (import_path a) (new_bon_list a)
    (ocr_blacklist a) l (ocr_file a) (running a).
Definition set_ocr_blacklist (a : App) (bl : list string) : App :=
  mkApp (bon_list a) (category_list a) (current_state a) (database a)
    (edit_field a) (import_list a) (import_path a) (new_bon_list a) bl
    (ocr_list a) (ocr_file a) (running a).
Definition set_ocr_file (a : App) (f : string) : App :=
  mkApp (bon_list a) (category_list a) (current_state a) (database a)
    (edit_field a) (import_list a) (import_path a) (new_bon_list a)
    (ocr_blacklist a) (ocr_list a) f (running a).
Definition set_bon_list (a : App) (l : SelList Database.BonRow) : App :=
  mkApp l (category_list a) (current_state a) (database a) (edit_field a)
    (import_list a) (import_path a) (new_bon_list a) (ocr_blacklist a)
    (ocr_list a) (ocr_file a) (running a).
Definition set_category_list (a : App) (l : SelList Database.Category) : App :=
  mkApp (bon_list a) l (current_state a) (database a) (edit_field a)
    (import_list a) (import_path a) (new_bon_list a) (ocr_blacklist a)
    (ocr_list a) (ocr_file a) (running a).
Definition set_import_list (a : App) (l : SelList string) : App :=
  mkApp (bon_list a) (category_list a) (current_state a) (database a)
    (edit_field a) l (import_path a) (new_bon_list a) (ocr_blacklist a)
    (ocr_list a) (ocr_file a) (running a).
Definition set_running (a : App) (r : bool) : App :=
  mkApp (bon_list a) (category_list a) (current_state a) (database a)
    (edit_field a) (import_list a) (import_path a) (new_bon_list a)
    (ocr_blacklist a) (ocr_list a) (ocr_file a) r.

Definition nb_set_items (nb : NewBonList) (l : SelList Database.Entry) : NewBonList :=
  mkNewBonList (date nb) l (price_calc nb) (price_eq nb) (price_ocr nb).
Definition nb_set_price_ocr (nb : NewBonList) (p : F64.f64) : NewBonList :=
  mkNewBonList (date nb) (bon_items nb) (price_calc nb) (price_eq nb) p.

Definition is_state (s : AppState) (a : App) : bool :=
  match s, current_state a with
  | Blacklist, Blacklist | Category, Category | ConvertBon, ConvertBon
  | EditBonPrice, EditBonPrice | EditCategory, EditCategory
  | EditName, EditName | EditPrice, EditPrice | Home, Home
  | Import, Import | OCR, OCR => true
  | _, _ => false
  end.

(** [line.replace(",", ".").parse::<f64>().ok()] on the first buffer line,
    then [.unwrap_or(0.0)]. *)
Definition parse_edit_price (lines : list string) : F64.f64 :=
  match lines with
  | line :: _ =>
      match F64.parse_f64 (replace_char ","%char "."%char line) with
      | Some p => p
      | None => 0%float
      end
  | [] => 0%float
  end.

(** [Iterator::min_by_key]: the first element with the least key. *)
Definition min_by_key {A} (f : A -> nat) (l : list A) : option A :=
  match l with
  | [] => None
  | x :: r => Some (fold_left (fun best y => if f y <? f best then y else best) r x)
  end.

(** [Path::file_name]: the last component of the path when it is a
    normal one (empty and "." components are dropped by [components]). *)
Definition file_name (path : string) : option string :=
  match rev (filter (fun c => negb (String.eqb c "" || String.eqb c "."))
                    (split "/"%char path)) with
  | last :: _ => if String.eqb last ".." then None else Some last
  | [] => None
  end.

(** [Path::join] of a relative file name. *)
Definition path_join (dir file : string) : string :=
  if String.eqb dir "" then file
  else match rev (chars dir) with
       | c :: _ => if Ascii.eqb c "/"%char then dir ++ file else dir ++ "/" ++ file
       | [] => file
       end.

(** The date normalisation of [import_bon]:
    [date.split(".").collect(); reverse(); join("-")]. *)
Definition normalize_date (date : string) : string :=
  String.concat "-" (rev (split "."%char date)).

Section Handlers.

(** The libraries the handlers call: [textdistance::str::damerau_levenshtein],
    [float_cmp]'s [approx_eq] with [F64Margin { ulps: 2, epsilon: 1.0 }],
    the OCR engine ([Image::from_path] and [image_to_string]; [None] when
    either fails, where the code panics), the directory listing of
    [read_ocr_files], and the [TextArea] editing operations. *)
Variable damerau_levenshtein : string -> string -> nat.
Variable approx_eq : F64.f64 -> F64.f64 -> bool.
Variable image_to_string : string -> option string.
Variable read_ocr_files : list string -> list string.
Variable ta_input : list string -> Key -> list string.
(** [move_cursor(CursorMove::End); delete_line_by_head()] *)
Variable ta_clear_line : list string -> list string.
Variable ta_insert_str : list string -> string -> list string.
Variable f64_to_string : F64.f64 -> string.
(** sqlite running a statement the model does not parse: the INSERT of a
    text that is not one SQL literal ([Database.sql_literal]).  The result
    is the database after it, or [None] where the statement fails and the
    [.expect] panics. *)
Variable execute_sql : Database.Database -> string -> option Database.Database.

(** Handlers return the new state and the events they [send], or [None]
    where the Rust code panics. *)
Definition Step := option (App * list AppEvent).

(** [calculate_summary].  In [Home] it rebuilds [bon_summary] (not
    modelled) from [bon_list.items[i]], which panics out of range. *)
Definition calculate_summary (a : App) : Step :=
  match current_state a with
  | Home =>
      match selected (bon_list a) with
      | Some i => if i <? List.length (items (bon_list a)) then Some (a, []) else None
      | None => Some (a, [])
      end
  | ConvertBon | EditPrice =>
      let nb := new_bon_list a in
      let calc := F64.sum (map Database.price (items (bon_items nb))) in
      Some (set_new_bon_list a
              (mkNewBonList (date nb) (bon_items nb) calc
                 (approx_eq (price_ocr nb) calc) (price_ocr nb)), [])
  | _ => Some (a, [])
  end.

(** The product matcher inside [convert_to_bon]: the pair
    (category, product) of the pushed [Entry].  With no product the
    distance is [usize::MAX], which is not below 4. *)
Definition match_product (db : Database.Database) (name : string)
  : string * string :=
  let db_products := Database.get_products db in
  let db_product := min_by_key
      (fun p => damerau_levenshtein name (Database.product_name p)) db_products in
  match db_product with
  | Some p =>
      if damerau_levenshtein name (Database.product_name p) <? 4 then
        let db_categories := Database.get_categories db in
        let category :=
          match find (fun c => Z.eqb (Database.category_id c)
                                     (Database.product_category_id p)) db_categories with
          | Some c => Database.category_name c
          | None => ""
          end in
        (category, Database.product_name p)
      else ("", name)
  | None => ("", name)
  end.

(** One iteration of the [for_each] of [convert_to_bon]. *)
Definition convert_line (db : Database.Database) (nb : NewBonList) (elem : OcrEntry)
  : NewBonList :=
  match ocr_type elem with
  | Date =>
      match Extract.extract_date (name elem) with
      | Some d => mkNewBonList d (bon_items nb) (price_calc nb) (price_eq nb) (price_ocr nb)
      | None => nb
      end
  | Entry =>
      match Extract.extract_name (name elem) with
      | Some n =>
          match Extract.extract_price (name elem) with
          | Some price =>
              let '(category, product) := match_product db n in
              nb_set_items nb (set_items (bon_items nb)
                 (items (bon_items nb) ++ [Database.mkEntry category product price]))
          | None => nb
          end
      | None => nb
      end
  | Sum =>
      match Extract.extract_price (name elem) with
      | Some s => nb_set_price_ocr nb s
      | None => nb
      end
  end.

Definition convert_to_bon (a : App) : Step :=
  let nb0 := new_bon_list a in
  let nb1 := mkNewBonList "" (set_items (bon_items nb0) []) 0%float (price_eq nb0) 0%float in
  let nb2 := fold_left (convert_line (database a)) (items (ocr_list a)) nb1 in
  let nb3 := match items (bon_items nb2) with
             | [] => nb2
             | _ => nb_set_items nb2 (select_first (bon_items nb2))
             end in
  Some (set_new_bon_list a nb3, [GoConvertBonState; CalculateSummary]).

(** The commit of an edit ([KeyCode::Enter] in [EditBonPrice], [EditName]
    or [EditPrice]). *)
Definition commit_edit (a : App) : Step :=
  let nb := new_bon_list a in
  let upd f :=
    match selected (bon_items nb) with
    | Some i =>
        match nth_error (items (bon_items nb)) i with
        | Some _ => set_new_bon_list a
                      (nb_set_items nb (set_items (bon_items nb)
                         (update_nth i f (items (bon_items nb)))))
        | None => a
        end
    | None => a
    end in
  let ev := [GoConvertBonState; CalculateSummary] in
  match current_state a with
  | EditBonPrice =>
      Some (set_new_bon_list a (nb_set_price_ocr nb (parse_edit_price (edit_field a))), ev)
  | EditName =>
      match edit_field a with
      | l0 :: _ =>
          Some (upd (fun e => Database.mkEntry (Database.category e) l0 (Database.price e)), ev)
      | [] => None
      end
  | EditPrice =>
      Some (upd (fun e => Database.mkEntry (Database.category e) (Database.product e)
                            (parse_edit_price (edit_field a))), ev)
  | _ => Some (a, ev)
  end.

(** [Database::add_blacklist_entry] and [Database::create_category] as
    the app calls them, on any text. *)
Definition add_blacklist_entry (db : Database.Database) (blacklist_entry : string)
  : option Database.Database :=
  if Database.sql_literal blacklist_entry
  then Some (Database.add_blacklist_entry db blacklist_entry)
  else execute_sql db (Database.add_blacklist_entry_query blacklist_entry).

Definition create_category (db : Database.Database) (category : string)
  : option Database.Database :=
  if Database.sql_literal category
  then Some (Database.create_category db category)
  else execute_sql db (Database.create_category_query category).

(** [KeyCode::Enter] in [Blacklist]. *)
Definition commit_blacklist_entry (a : App) : Step :=
  match edit_field a with
  | l0 :: _ =>
      match add_blacklist_entry (database a) l0 with
      | Some db => Some (set_database a db, [GoOcrState; UpdateFromDatabase])
      | None => None
      end
  | [] => None
  end.

(** The buffer cleared and refilled with the selected element's text
    ([items[i]] panics out of range). *)
Definition refill {A} (a : App) (l : SelList A) (txt : A -> string) : option App :=
  let ef := ta_clear_line (edit_field a) in
  match selected l with
  | Some i =>
      match nth_error (items l) i with
      | Some x => Some (set_edit_field a (ta_insert_str ef (txt x)))
      | None => None
      end
  | None => Some (set_edit_field a ef)
  end.

Definition with_events (r : option App) (ev : list AppEvent) : Step :=
  option_map (fun a => (a, ev)) r.

(** [KeyCode::Char('x')]: delete the selected OCR line or draft item. *)
Definition key_x (a : App) : Step :=
  if is_state OCR a then
    match selected (ocr_list a) with
    | Some i =>
        match remove_nth i (items (ocr_list a)) with
        | Some l => Some (set_ocr_list a (set_items (ocr_list a) l), [])
        | None => None
        end
    | None => Some (a, [])
    end
  else if is_state ConvertBon a then
    let nb := new_bon_list a in
    match selected (bon_items nb) with
    | Some i =>
        match remove_nth i (items (bon_items nb)) with
        | Some l => Some (set_new_bon_list a
                            (nb_set_items nb (set_items (bon_items nb) l)),
                          [CalculateSummary])
        | None => None
        end
    | None => Some (a, [CalculateSummary])
    end
  else Some (a, []).

(** The last branch of [handle_key_events]: keys outside the modal
    states. *)
Definition normal_key (a : App) (k : Key) : Step :=
  match k with
  | KChar "a" =>
      if is_state Category a then
        Some (set_edit_field a (ta_clear_line (edit_field a)), [GoEditCategoryState])
      else Some (a, [])
  | KChar "b" =>
      if is_state OCR a then
        with_events (refill a (ocr_list a) name) [GoBlacklistState]
      else Some (a, [])
  | KChar "c" => Some (a, [GoCategoryState])
  | KChar "d" => Some (a, [OcrMarkDate])
  | KChar "h" => Some (a, [HideItem])
  | KChar "i" => Some (a, [GoImportState])
  | KChar "j" => Some (a, [NextItem])
  | KChar "k" => Some (a, [PreviousItem])
  | KChar "n" =>
      with_events (refill a (bon_items (new_bon_list a)) Database.product) [GoEditNameState]
  | KChar "o" =>
      Some (set_edit_field a (ta_insert_str (ta_clear_line (edit_field a))
                                (f64_to_string (price_ocr (new_bon_list a)))),
            [GoEditBonPriceState])
  | KChar "p" =>
      with_events (refill a (bon_items (new_bon_list a))
                     (fun e => f64_to_string (Database.price e))) [GoEditPriceState]
  | KChar "q" => Some (a, [Quit])
  | KChar "s" => Some (a, [OcrMarkSum])
  | KChar "x" => key_x a
  | KEnter =>
      if is_state Import a then
        match selected (import_list a) with
        | Some i =>
            match nth_error (items (import_list a)) i with
            | Some f => Some (set_ocr_file a (path_join (import_path a) f), [GoOcrState])
            | None => None
            end
        | None => Some (a, [GoOcrState])
        end
      else if is_state OCR a then Some (a, [ConvertToBon])
      else if is_state ConvertBon a then Some (a, [ImportBon])
      else if is_state Category a then
        let nb := new_bon_list a in
        let a' :=
          match selected (category_list a) with
          | Some i =>
              match nth_error (items (category_list a)) i, selected (bon_items nb) with
              | Some c, Some j =>
                  match nth_error (items (bon_items nb)) j with
                  | Some _ =>
                      set_new_bon_list a (nb_set_items nb (set_items (bon_items nb)
                        (update_nth j (fun e => Database.mkEntry (Database.category_name c)
                                                  (Database.product e) (Database.price e))
                           (items (bon_items nb)))))
                  | None => a
                  end
              | _, _ => a
              end
          | None => a
          end in
        Some (a', [GoConvertBonState])
      else Some (a, [])
  | KEsc =>
      if is_state Category a then Some (a, [GoConvertBonState]) else Some (a, [GoHomeState])
  | _ => Some (a, [])
  end.

Definition handle_key_events (a : App) (k : Key) : Step :=
  match current_state a with
  | Blacklist =>
      match k with
      | KEnter => commit_blacklist_entry a
      | KEsc => Some (a, [GoOcrState])
      | _ => Some (set_edit_field a (ta_input (edit_field a) k), [])
      end
  | EditBonPrice | EditName | EditPrice =>
      match k with
      | KEnter => commit_edit a
      | KEsc => Some (a, [GoConvertBonState])
      | _ => Some (set_edit_field a (ta_input (edit_field a) k), [])
      end
  | EditCategory =>
      match k with
      | KEnter =>
          match edit_field a with
          | l0 :: _ =>
              let exists_ := existsb (fun c => String.eqb (Database.category_name c) l0)
                               (items (category_list a)) in
              if exists_ then Some (a, [GoCategoryState; UpdateFromDatabase])
              else match create_category (database a) l0 with
                   | Some db => Some (set_database a db, [GoCategoryState; UpdateFromDatabase])
                   | None => None
                   end
          | [] => None
          end
      | KEsc => Some (a, [GoCategoryState])
      | _ => Some (set_edit_field a (ta_input (edit_field a) k), [])
      end
  | _ => normal_key a k
  end.

Definition go_if (ok : bool) (a : App) (s : AppState) : Step :=
  Some (if ok then set_state a s else a, []).

Definition go_category_state (a : App) : Step :=
  if is_state ConvertBon a || is_state EditCategory a then
    let cl := match items (category_list a) with
              | [] => category_list a
              | _ => select_first (category_list a)
              end in
    Some (set_state (set_category_list a cl) Category, [])
  else Some (a, []).

Definition go_home_state (a : App) : Step :=
  Some (set_state (set_ocr_list a (mkSelList [] None)) Home, []).

Definition go_ocr_state (a : App) : Step :=
  let a1 := set_state a OCR in
  match items (ocr_list a1) with
  | [] => Some (set_ocr_list a1 (set_items (ocr_list a1) [mkOcrEntry "Processing.." Entry]),
                [PerformOCR])
  | _ => Some (a1, [])
  end.

Definition hide_item (a : App) : Step :=
  if is_state Home a then
    match selected (bon_list a) with
    | Some i =>
        match nth_error (items (bon_list a)) i with
        | Some b => Some (set_database a (Database.hide_bon (database a) (Database.bon_id b)),
                          [UpdateFromDatabase])
        | None => Some (a, [])
        end
    | None => Some (a, [])
    end
  else Some (a, []).

(** One iteration of the [for_each] of [import_bon]: resolve or create the
    category, resolve or create the product, create the entry. *)
Definition import_entry (bon_id : Z) (db : Database.Database) (entry : Database.Entry)
  : Database.Database :=
  let categories := Database.get_categories db in
  let '(db1, category_id) :=
    match find (fun cat => String.eqb (Database.category_name cat) (Database.category entry))
               categories with
    | Some cat => (db, Database.category_id cat)
    | None =>
        let db' := Database.create_category db (Database.category entry) in
        (db', Database.get_last_category_id db')
    end in
  let products := Database.get_products db1 in
  let '(db2, product_id) :=
    match find (fun prod => String.eqb (Database.product_name prod) (Database.product entry))
               products with
    | Some cat => (db1, Database.product_category_id cat)   (* [|cat| cat.category_id] *)
    | None =>
        let db' := Database.create_product db1 category_id (Database.product entry) in
        (db', Database.get_last_product_id db')
    end in
  Database.create_entry db2 bon_id product_id (Database.price entry).

(** The database writes of [import_bon]. *)
Definition import_db (db : Database.Database) (nb : NewBonList) : Database.Database :=
  let db1 := Database.create_bon db (normalize_date (date nb)) (price_ocr nb) in
  let bon_id := Database.get_last_bon_id db1 in
  fold_left (import_entry bon_id) (items (bon_items nb)) db1.

(** Whether each name [import_entry] splices into an INSERT of
    [create_category] or [create_product] is one SQL string literal. *)
Definition import_entry_literal (db : Database.Database) (entry : Database.Entry) : bool :=
  let found_category :=
    find (fun cat => String.eqb (Database.category_name cat) (Database.category entry))
      (Database.get_categories db) in
  let db1 := match found_category with
             | Some _ => db
             | None => Database.create_category db (Database.category entry)
             end in
  let found_product :=
    find (fun prod => String.eqb (Database.product_name prod) (Database.product entry))
      (Database.get_products db1) in
  match found_category with Some _ => true | None => Database.sql_literal (Database.category entry) end
  && match found_product with Some _ => true | None => Database.sql_literal (Database.product entry) end.

Definition import_literals (db : Database.Database) (nb : NewBonList) : bool :=
  let db1 := Database.create_bon db (normalize_date (date nb)) (price_ocr nb) in
  let bon_id := Database.get_last_bon_id db1 in
  fst (fold_left (fun '(ok, db) entry =>
                    (ok && import_entry_literal db entry, import_entry bon_id db entry))
         (items (bon_items nb)) (true, db1)).

(** [import_bon].  A category or product name it inserts that is not one
    SQL string literal stops it ([None]): with a lone quote the INSERT is
    a syntax error and [.expect] panics; a quote that closes the literal
    can also make a valid statement, which this model does not run. *)
Definition import_bon (a : App) : Step :=
  if import_literals (database a) (new_bon_list a) then
    let db := import_db (database a) (new_bon_list a) in
    match file_name (ocr_file a) with
    | Some f =>
        Some (set_ocr_file (set_database a (Database.add_processed_entry db f)) "",
              [GoHomeState; UpdateFromDatabase; CalculateSummary])
    | None => None
    end
  else None.

(** [i < items.len() - 1] on [usize]: the subtraction overflows for an
    empty list, a panic under the overflow checks of a debug build. *)
Definition next_in {A} (l : SelList A) : option (SelList A * bool) :=
  match selected l with
  | Some i =>
      match List.length (items l) with
      | 0 => None
      | S m => if i <? m then Some (select_next l, true) else Some (l, false)
      end
  | None => Some (l, false)
  end.

Definition previous_in {A} (l : SelList A) : option (SelList A * bool) :=
  match selected l with
  | Some i => if 0 <? i then Some (select_previous l, true) else Some (l, false)
  | None => Some (l, false)
  end.

Definition move_item (mv : forall A, SelList A -> option (SelList A * bool)) (a : App)
  : Step :=
  match current_state a with
  | Category => option_map (fun '(l, _) => (set_category_list a l, [])) (mv _ (category_list a))
  | ConvertBon =>
      option_map (fun '(l, _) => (set_new_bon_list a (nb_set_items (new_bon_list a) l), []))
        (mv _ (bon_items (new_bon_list a)))
  | Home =>
      option_map (fun (p : SelList Database.BonRow * bool) =>
                    (set_bon_list a (fst p), if snd p then [CalculateSummary] else []))
        (mv _ (bon_list a))
  | Import => option_map (fun '(l, _) => (set_import_list a l, [])) (mv _ (import_list a))
  | OCR => option_map (fun '(l, _) => (set_ocr_list a l, [])) (mv _ (ocr_list a))
  | _ => Some (a, [])
  end.

Definition next_item := move_item (@next_in).
Definition previous_item := move_item (@previous_in).

Definition perform_ocr (a : App) : Step :=
  match image_to_string (ocr_file a) with
  | Some ocr_text =>
      let l := set_items (ocr_list a) (Classifier.classify ocr_text (ocr_blacklist a)) in
      let l' := match items l with [] => l | _ => select_first l end in
      Some (set_ocr_list a l', [])
  | None => None
  end.

(** [if !items.is_empty() { state.select_first() }] *)
Definition sel_first {A} (l : SelList A) : SelList A :=
  match items l with [] => l | _ => select_first l end.

Definition update_from_database (a : App) : Step :=
  match current_state a with
  | OCR =>
      let bl := Database.get_blacklist (database a) in
      let a1 := set_ocr_blacklist a bl in
      Some (set_ocr_list a1 (set_items (ocr_list a1)
              (filter (fun line => negb (Classifier.blacklisted bl (name line)))
                 (items (ocr_list a1)))), [])
  | Home =>
      match Database.get_bons (database a) with
      | Some bons =>
          let a1 := set_bon_list a (sel_first (set_items (bon_list a) bons)) in
          let a2 := set_import_list a1 (sel_first (set_items (import_list a1)
                      (read_ocr_files (Database.get_processed (database a1))))) in
          Some (a2, [])
      | None => None
      end
  | Category =>
      let l := set_items (category_list a) (Database.get_categories (database a)) in
      Some (set_category_list a (sel_first l), [])
  | _ => Some (a, [])
  end.

(** The dispatch on [Event::App] in [App::run]. *)
Definition handle_event (a : App) (ev : AppEvent) : Step :=
  match ev with
  | CalculateSummary => calculate_summary a
  | ConvertToBon => convert_to_bon a
  | GoBlacklistState => go_if (is_state OCR a) a Blacklist
  | GoCategoryState => go_category_state a
  | GoConvertBonState => Some (set_state a ConvertBon, [])
  | GoEditBonPriceState => go_if (is_state ConvertBon a) a EditBonPrice
  | GoEditCategoryState => go_if (is_state Category a) a EditCategory
  | GoEditNameState => go_if (is_state ConvertBon a) a EditName
  | GoEditPriceState => go_if (is_state ConvertBon a) a EditPrice
  | GoHomeState => go_home_state a
  | GoImportState => go_if (is_state Home a) a Import
  | GoOcrState => go_ocr_state a
  | HideItem => hide_item a
  | ImportBon => import_bon a
  | NextItem => next_item a
  | OcrMarkDate => Some (set_ocr_list a (ocr_mark_date (ocr_list a)), [])
  | OcrMarkSum => Some (set_ocr_list a (ocr_mark_sum (ocr_list a)), [])
  | PerformOCR => perform_ocr a
  | PreviousItem => previous_item a
  | UpdateFromDatabase => update_from_database a
  | Quit => Some (set_running a false, [])
  end.

(** Rendering a [List] with its [ListState] (ratatui) in an area with
    room: an empty list loses its selection, an index past the end is
    moved to the last item.  ui.rs relies on it when it reads [items[i]]
    after rendering. *)
Definition list_render {A} (l : SelList A) : SelList A :=
  match items l with
  | [] => mkSelList [] None
  | _ => match selected l with
         | Some i => if i <? List.length (items l) then l
                     else mkSelList (items l) (Some (List.length (items l) - 1))
         | None => l
         end
  end.

(** [List::render] returns before it looks at the items or the state when
    the inner area of its block is empty (a terminal too small for the
    list, e.g. three rows high): then the selection is left as it is. *)
Definition list_render_in {A} (has_room : bool) (l : SelList A) : SelList A :=
  if has_room then list_render l else l.

(** Whether the inner area of each [List] of ui.rs is non-empty: the bons
    of [render_home], the draft items of [render_convert], and the
    popups of [render_category], [render_import] and [render_ocr].  It
    follows from the terminal size and the layout. *)
Record Room := mkRoom
  { room_bons : bool; room_items : bool; room_categories : bool;
    room_import : bool; room_ocr : bool }.

(** A terminal where every list has room. *)
Definition roomy : Room := mkRoom true true true true true.

(** The stateful lists that [ui.rs] renders in each state. *)
Definition render_lists (room : Room) (a : App) : App :=
  let home a := set_bon_list a (list_render_in (room_bons room) (bon_list a)) in
  let conv a := set_new_bon_list a (nb_set_items (new_bon_list a)
                  (list_render_in (room_items room) (bon_items (new_bon_list a)))) in
  let ocr a := set_ocr_list a (list_render_in (room_ocr room) (ocr_list a)) in
  match current_state a with
  | Blacklist | OCR => ocr (home a)
  | Category =>
      set_category_list (conv a) (list_render_in (room_categories room) (category_list a))
  | ConvertBon | EditBonPrice | EditCategory | EditName | EditPrice => conv a
  | Home => home a
  | Import => set_import_list (home a) (list_render_in (room_import room) (import_list a))
  end.

(** [state.selected()] is [None] or an index of [items]. *)
Definition sel_ok {A} (l : SelList A) : bool :=
  match selected l with Some i => i <? List.length (items l) | None => true end.

(** The reads of ui.rs after the lists are rendered: [render_home] reads
    [bon_list.items[i]], [render_convert] reads [new_bon_list.items[i]]
    for the selected [i], and panics out of range. *)
Definition ui_reads_ok (a : App) : bool :=
  match current_state a with
  | Blacklist | OCR | Home | Import => sel_ok (bon_list a)
  | Category | ConvertBon | EditBonPrice | EditCategory | EditName | EditPrice =>
      sel_ok (bon_items (new_bon_list a))
  end.

(** [terminal.draw] on a terminal with the given room ([None] where ui.rs
    panics). *)
Definition draw_in (room : Room) (a : App) : option App :=
  let a' := render_lists room a in
  if ui_reads_ok a' then Some a' else None.

(** [terminal.draw] on a terminal where every list has room; there it
    never panics ([draw_in_roomy]). *)
Definition draw (a : App) : App := render_lists roomy a.

(** The [while self.running] loop of [App::run] fed with the application
    events only, on a terminal where every list has room: draw, take the
    oldest event, handle it, queue what it sends.  At most [fuel] events;
    the rest of the queue is returned. *)
Fixpoint run_events (fuel : nat) (a : App) (q : list AppEvent)
  : option (App * list AppEvent) :=
  match fuel, q with
  | S f, ev :: rest =>
      match handle_event (draw a) ev with
      | Some (a', sent) => run_events f a' (rest ++ sent)
      | None => None
      end
  | _, _ => Some (a, q)
  end.

End Handlers.

(* ------------------------------------------------------------------ *)
(** ** Executable instances of the library parameters

    [damerau_levenshtein] is textdistance's default, unrestricted
    Damerau-Levenshtein distance (Lowrance-Wagner, with the last row in
    which each character occurred); [approx_eq] is float_cmp's
    [ApproxEq for f64] with [F64Margin { ulps: 2, epsilon: 1.0 }].  The
    OCR engine and the import directory are fixtures. *)

Module Libs.

(** sqlite rejecting every statement the model does not parse (the
    fixtures insert SQL literals only). *)
Definition execute_sql (db : Database.Database) (query : string) : option Database.Database :=
  None.

Definition dl_get (rows : list (list nat)) (x y : nat) : nat := nth y (nth x rows []) 0.

Fixpoint da_lookup (da : list (ascii * nat)) (c : ascii) : nat :=
  match da with
  | [] => 0
  | (c', v) :: r => if Ascii.eqb c c' then v else da_lookup r c
  end.

(** Row [i] (1-based) of the distance table; [rows] holds the rows
    [-1 .. i-1], each shifted by one column for index [-1]. *)
Fixpoint dl_row (ai : ascii) (i : nat) (rows : list (list nat)) (da : list (ascii * nat))
  (bs : list ascii) (j db : nat) (cur_rev : list nat) : list nat :=
  match bs with
  | [] => rev cur_rev
  | bj :: bs' =>
      let k := da_lookup da bj in
      let l := db in
      let same := Ascii.eqb ai bj in
      let cost := if same then 0 else 1 in
      let db' := if same then j else db in
      let v := Nat.min (Nat.min (dl_get rows i j + cost) (hd 0 cur_rev + 1))
                       (Nat.min (dl_get rows i (S j) + 1)
                                (dl_get rows k l + (i - k - 1) + 1 + (j - l - 1))) in
      dl_row ai i rows da bs' (S j) db' (v :: cur_rev)
  end.

Fixpoint dl_rows (as_ : list ascii) (i : nat) (bs : list ascii) (maxdist : nat)
  (rows : list (list nat)) (da : list (ascii * nat)) : list (list nat) :=
  match as_ with
  | [] => rows
  | ai :: r =>
      let row := dl_row ai i rows da bs 1 0 [i; maxdist] in
      dl_rows r (S i) bs maxdist (rows ++ [row]) ((ai, i) :: da)
  end.

Definition damerau_levenshtein (s1 s2 : string) : nat :=
  let a := chars s1 in
  let b := chars s2 in
  let maxdist := List.length a + List.length b in
  let row_m1 := repeat maxdist (List.length b + 2) in
  let row_0 := maxdist :: seq 0 (List.length b + 1) in
  let rows := dl_rows a 1 b maxdist [row_m1; row_0] [] in
  dl_get rows (List.length a + 1) (List.length b + 1).

(** [f64::to_bits], read as an [i64]. *)
Definition to_bits_i64 (x : float) : Z :=
  let bits :=
    match FloatOps.Prim2SF x with
    | SpecFloat.S754_zero s => if s then 2 ^ 63 else 0
    | SpecFloat.S754_infinity s => (if s then 2 ^ 63 else 0) + 2047 * 2 ^ 52
    | SpecFloat.S754_nan => 2047 * 2 ^ 52 + 2 ^ 51
    | SpecFloat.S754_finite s m e =>
        let m := Z.pos m in
        (if s then 2 ^ 63 else 0) +
        (if (m <? 2 ^ 52) then m else (e + 1075) * 2 ^ 52 + (m - 2 ^ 52))
    end%Z in
  if (2 ^ 63 <=? bits)%Z then (bits - 2 ^ 64)%Z else bits.

Definition approx_eq (x y : float) : bool :=
  PrimFloat.eqb x y
  || PrimFloat.leb (PrimFloat.abs (PrimFloat.sub x y)) 1%float
  || (let d := ((to_bits_i64 x - to_bits_i64 y + 2 ^ 63) mod 2 ^ 64 - 2 ^ 63)%Z in
      let ad := if (d =? - 2 ^ 63)%Z then (2 ^ 63 - 1)%Z else Z.abs d in
      (ad <=? 2)%Z).

(** The OCR fixture: the photographed receipt of the spec's scenario. *)
Definition scenario_text : string :=
  "Milch 2,49" ++ String "010" ("Brot 3,10" ++ String "010" ("SUMME 5,59"
  ++ String "010" "24.12.2024 Kassenbon")).

Definition image_to_string (path : string) : option string :=
  if String.eqb path "bons/bon.jpg" then Some scenario_text else None.

(** [read_ocr_files] over a directory holding [bon.jpg] and [notes.txt]:
    not yet processed, and an image. *)
Definition read_ocr_files (processed : list string) : list string :=
  filter (fun entry => negb (existsb (fun elem => contains entry elem) processed)
                       && (contains entry "jpg" || contains entry "png" || contains entry "jpeg"))
    ["bon.jpg"; "notes.txt"].

End Libs.

(** [read_ocr_files] over the entry names of the import directory
    ([fs::read_dir(settings.import_path())], in the order the directory
    yields them): the names that contain no processed name, then those
    that contain "jpg", "png" or "jpeg". *)
Definition read_ocr_files_of (listing : list string) (processed : list string) : list string :=
  filter (fun entry => contains entry "jpg" || contains entry "png" || contains entry "jpeg")
    (filter (fun entry => negb (existsb (fun elem => contains entry elem) processed)) listing).

(* ------------------------------------------------------------------ *)
(** ** Notions used by the statements below *)

(** The claim's reading of "last token": the last of the
    whitespace-separated, non-empty tokens of a line. *)
Fixpoint ws_tokens_rev (cur : list ascii) (l : list ascii) : list string :=
  match l with
  | [] => match cur with [] => [] | _ => [str_of_list (rev cur)] end
  | c :: r =>
      if Chars.is_whitespace c then
        match cur with
        | [] => ws_tokens_rev [] r
        | _ => str_of_list (rev cur) :: ws_tokens_rev [] r
        end
      else ws_tokens_rev (c :: cur) r
  end.

Definition last_ws_token (s : string) : string :=
  last (ws_tokens_rev [] (chars s)) EmptyString.

(** [l1] is [l2] with some elements dropped, the order kept. *)
Inductive subseq {A} : list A -> list A -> Prop :=
| subseq_nil : subseq [] []
| subseq_keep x l1 l2 : subseq l1 l2 -> subseq (x :: l1) (x :: l2)
| subseq_drop x l1 l2 : subseq l1 l2 -> subseq l1 (x :: l2).

(** The totals of a draft agree with its items, as [calculate_summary]
    leaves them. *)
Definition draft_consistent (approx_eq : F64.f64 -> F64.f64 -> bool) (nb : NewBonList)
  : Prop :=
  price_calc nb = F64.sum (map Database.price (items (bon_items nb)))
  /\ price_eq nb = approx_eq (price_ocr nb) (price_calc nb).

(** The operations that change the draft's items or prices. *)
Inductive DraftOp := OpConvert | OpDeleteItem | OpEditPrice | OpEditBonPrice.

(** The state each operation is triggered from (conversion runs in
    whatever state its event is handled). *)
Definition op_state_ok (op : DraftOp) (s : AppState) : Prop :=
  match op, s with
  | OpConvert, _ => True
  | OpDeleteItem, ConvertBon | OpEditPrice, EditPrice | OpEditBonPrice, EditBonPrice => True
  | _, _ => False
  end.

Definition draft_op (damerau_levenshtein : string -> string -> nat) (op : DraftOp) (a : App)
  : Step :=
  match op with
  | OpConvert => convert_to_bon damerau_levenshtein a
  | OpDeleteItem => key_x a
  | OpEditPrice | OpEditBonPrice => commit_edit a
  end.

(** The list [next_item] and [previous_item] act on in each state: its
    length and selection. *)
Definition active_list (a : App) : option (nat * option nat) :=
  let view {A} (l : SelList A) := Some (List.length (items l), selected l) in
  match current_state a with
  | Category => view (category_list a)
  | ConvertBon => view (bon_items (new_bon_list a))
  | Home => view (bon_list a)
  | Import => view (import_list a)
  | OCR => view (ocr_list a)
  | _ => None
  end.

Definition retag (t : OcrType) (e : OcrEntry) : OcrEntry := mkOcrEntry (name e) t.

Definition with_selection (nb : NewBonList) (s : option nat) : NewBonList :=
  nb_set_items nb (mkSelList (items (bon_items nb)) s).

(** The draft [convert_to_bon] computes from the OCR lines, the database
    and the previous draft. *)
Definition convert_draft (damerau_levenshtein : string -> string -> nat)
  (db : Database.Database) (lines : list OcrEntry) (nb0 : NewBonList) : NewBonList :=
  let nb1 := mkNewBonList "" (set_items (bon_items nb0) []) 0%float (price_eq nb0) 0%float in
  let nb2 := fold_left (convert_line damerau_levenshtein db) lines nb1 in
  match items (bon_items nb2) with
  | [] => nb2
  | _ => nb_set_items nb2 (select_first (bon_items nb2))
  end.

(** The selection of a list is within it, or there is none. *)
Definition sel_in_range {A} (l : SelList A) : Prop :=
  match selected l with Some i => i < List.length (items l) | None => True end.

(** Fixtures of the concrete runs below. *)
Module Fixtures.

Definition nb_empty : NewBonList := mkNewBonList "" (mkSelList [] None) 0%float false 0%float.

Definition app (st : AppState) (ef : list string) (ocr : list OcrEntry)
  (nb : NewBonList) (db : Database.Database) : App :=
  mkApp (mkSelList [] None) (mkSelList [] None) st db ef (mkSelList [] None) "bons"
    nb [] (mkSelList ocr (Some 0)) "bons/bon.jpg" true.

Definition milch : Database.Entry := Database.mkEntry "" "Milch" 2.49%float.
Definition brot : Database.Entry := Database.mkEntry "" "Brot" 3.1%float.

Definition draft (d : string) (es : list Database.Entry) (sel : option nat) : NewBonList :=
  mkNewBonList d (mkSelList es sel) 0%float false 0%float.

Definition run := run_events Libs.damerau_levenshtein Libs.approx_eq
                    Libs.image_to_string Libs.read_ocr_files.

End Fixtures.

Module MarkFixtures.

(** A date line already tagged, the cursor on an entry line. *)
Definition two_lines : SelList OcrEntry :=
  mkSelList [mkOcrEntry "24.12.2024 14:03" Date; mkOcrEntry "Milch 2,49" Entry] (Some 1).

End MarkFixtures.

Module ImportFixtures.

(** A catalog with categories Obst (1), Milchprodukte (2) and products
    Apfel (1, Obst), Birne (2, Obst), Butter (3, Milchprodukte). *)
Definition catalog : Database.Database :=
  let db := Database.create_category Database.empty "Obst" in
  let db := Database.create_category db "Milchprodukte" in
  let db := Database.create_product db 1%Z "Apfel" in
  let db := Database.create_product db 1%Z "Birne" in
  Database.create_product db 2%Z "Butter".

Definition e (c p : string) (x : F64.f64) : Database.Entry := Database.mkEntry c p x.

(** A draft whose last item repeats a product created by the first two. *)
Definition repeated : NewBonList :=
  Fixtures.draft "24.12.2024"
    [e "Milchprodukte" "Milch" 1.0%float; e "Milchprodukte" "Butter" 2.0%float;
     e "Milchprodukte" "Butter" 2.0%float] None.

(** A draft with a product already in [catalog]. *)
Definition known : NewBonList :=
  Fixtures.draft "24.12.2024" [e "Milchprodukte" "Butter" 2.0%float] None.

(** The OCR screen of a receipt, to be converted against [catalog]. *)
Definition ocr_app : App :=
  Fixtures.app OCR [] [mkOcrEntry "24.12.2024" Date; mkOcrEntry "Butte 2,00" Entry]
    Fixtures.nb_empty catalog.

(** A draft of two items on the conversion screen, the first selected. *)
Definition convert_app : App :=
  Fixtures.app ConvertBon [] [] (Fixtures.draft "24.12.2024" [Fixtures.milch; Fixtures.brot] (Some 0))
    Database.empty.

(** A price edit of Milch with the buffer "abc". *)
Definition edit_app : App :=
  Fixtures.app EditPrice ["abc"] [] (Fixtures.draft "24.12.2024" [Fixtures.milch] (Some 0))
    Database.empty.


End ImportFixtures.

Module SumFixtures.

(** A receipt whose cursor is on the total, no line tagged yet. *)
Definition lines : SelList OcrEntry :=
  mkSelList [mkOcrEntry "Milch 2,49" Entry; mkOcrEntry "SUMME 2,49" Entry] (Some 1).

End SumFixtures.

Module CategoryFixtures.

(** The category editor over [ImportFixtures.catalog], whose two
    categories are listed (the second selected), the buffer holding
    [name]. *)
Definition edit_app (name : string) : App :=
  mkApp (mkSelList [] None)
    (mkSelList (Database.categories ImportFixtures.catalog) (Some 1))
    EditCategory ImportFixtures.catalog [name] (mkSelList [] None) "bons"
    Fixtures.nb_empty [] (mkSelList [] None) "" true.

End CategoryFixtures.

Module OpenFixtures.

(** The Import screen listing [bon.jpg] (selected) under [bons], no OCR
    line left. *)
Definition import_app : App :=
  mkApp (mkSelList [] None) (mkSelList [] None) Import Database.empty [""]
    (mkSelList ["bon.jpg"] (Some 0)) "bons" Fixtures.nb_empty []
    (mkSelList [] None) "" true.

End OpenFixtures.

Module SmallFixtures.


(** The OCR screen with one line, selected. *)
Definition ocr_app : App :=
  Fixtures.app OCR [""] [mkOcrEntry "Milch 2,49" Entry] Fixtures.nb_empty Database.empty.

End SmallFixtures.

(* ================================================================== *)
(** * Properties *)

(* ------------------------------------------------------------------ *)
(** ** Lemmas on the list helpers *)

Lemma OcrType_eqb_eq (a b : OcrType) : OcrType_eqb a b = true <-> a = b.
Proof. destruct a, b; simpl; split; intro H; congruence. Qed.

Lemma count_type_update (t : OcrType) (f : OcrEntry -> OcrEntry) :
  forall l i e, nth_error l i = Some e ->
  count_type t (update_nth i f l) + (if OcrType_eqb (ocr_type e) t then 1 else 0)
  = count_type t l + (if OcrType_eqb (ocr_type (f e)) t then 1 else 0).
Proof.
  unfold count_type.
  induction l as [|x l IH]; intros [|i] e H; simpl in H; try discriminate.
  - injection H as <-. simpl.
    destruct (OcrType_eqb (ocr_type (f x)) t), (OcrType_eqb (ocr_type x) t); simpl; lia.
  - simpl. specialize (IH i e H).
    destruct (OcrType_eqb (ocr_type x) t); simpl; lia.
Qed.

Lemma count_type_nth (t : OcrType) :
  forall l i e, nth_error l i = Some e -> ocr_type e = t -> 1 <= count_type t l.
Proof.
  unfold count_type.
  induction l as [|x l IH]; intros [|i] e H Ht; simpl in H; try discriminate.
  - injection H as <-. subst t. simpl. destruct (ocr_type x); simpl; lia.
  - simpl. specialize (IH i e H Ht). destruct (OcrType_eqb (ocr_type x) t); simpl; lia.
Qed.

(* ------------------------------------------------------------------ *)
(** ** C3: MarkAsDate *)

(** Claim C3, counterexample: with line 0 tagged [Date] and the cursor on
    line 1 tagged [Entry], [ocr_mark_date] changes nothing; the old date
    line is not retagged and the selected line does not become the date. *)
Lemma ocr_mark_date_keeps_old_date :
  ocr_mark_date MarkFixtures.two_lines = MarkFixtures.two_lines
  /\ map ocr_type (items (ocr_mark_date MarkFixtures.two_lines)) = [Date; Entry].
Proof. split; reflexivity. Qed.

(** Claim C3, as the code has it: on a selected [Entry] line, MarkAsDate
    tags it [Date] when no line is tagged [Date] and is a no-op when one
    already is; on a selected [Date] line it retags that line [Entry]; on a
    [Sum] line it does nothing.  A list with at most one [Date] line keeps
    at most one. *)
Theorem ocr_mark_date_spec (l : SelList OcrEntry) (i : nat) (e : OcrEntry) :
  selected l = Some i -> nth_error (items l) i = Some e ->
  (ocr_type e = Entry -> count_type Date (items l) <> 0 -> ocr_mark_date l = l)
  /\ (ocr_type e = Entry -> count_type Date (items l) = 0 ->
      ocr_mark_date l = set_items l (update_nth i (retag Date) (items l))
      /\ count_type Date (items (ocr_mark_date l)) = 1)
  /\ (ocr_type e = Date ->
      ocr_mark_date l = set_items l (update_nth i (retag Entry) (items l))
      /\ count_type Date (items (ocr_mark_date l)) = count_type Date (items l) - 1)
  /\ (ocr_type e = Sum -> ocr_mark_date l = l)
  /\ (count_type Date (items l) <= 1 -> count_type Date (items (ocr_mark_date l)) <= 1).
Proof.
  intros Hs Hn.
  pose proof (count_type_update Date (retag Date) _ _ _ Hn) as UD.
  pose proof (count_type_update Date (retag Entry) _ _ _ Hn) as UE.
  unfold retag in UD, UE; simpl in UD, UE.
  unfold ocr_mark_date, ocr_mark. rewrite Hs, Hn.
  destruct (ocr_type e) eqn:Et; simpl in UD, UE |- *.
  - (* Date *)
    pose proof (count_type_nth Date _ _ _ Hn Et).
    destruct (count_type Date (items l) =? 0) eqn:Z0; simpl.
    + apply Nat.eqb_eq in Z0. lia.
    + repeat split; intros; try discriminate; unfold retag; simpl; try reflexivity; lia.
  - (* Entry *)
    destruct (count_type Date (items l) =? 0) eqn:Z0; simpl.
    + apply Nat.eqb_eq in Z0.
      repeat split; intros; try discriminate; try lia; unfold retag; simpl; try reflexivity; lia.
    + apply Nat.eqb_neq in Z0. repeat split; intros; try discriminate; lia.
  - (* Sum *)
    rewrite andb_false_r. repeat split; intros; discriminate || lia.
Qed.

(** Witness of [ocr_mark_date_spec]: the cursor on the entry line of
    [two_lines], another line being the date. *)
Lemma ocr_mark_date_spec_witness :
  selected MarkFixtures.two_lines = Some 1
  /\ nth_error (items MarkFixtures.two_lines) 1 = Some (mkOcrEntry "Milch 2,49" Entry)
  /\ ocr_mark_date MarkFixtures.two_lines = MarkFixtures.two_lines.
Proof.
  split; [reflexivity|]. split; [reflexivity|].
  exact (proj1 (ocr_mark_date_spec MarkFixtures.two_lines 1 _ eq_refl eq_refl)
           eq_refl ltac:(vm_compute; discriminate)).
Defined.

(* ------------------------------------------------------------------ *)
(** ** C9: the stored date *)

(** Claim C9, failing input: [extract_date] accepts [24,12,2024], and
    [import_bon] stores it as it is, since the normalisation splits on
    '.' only; a mixed [24.12,2024] is stored as [12,2024-24].  A date with
    dots is reordered to [2024-12-24]. *)
Theorem import_bon_date_comma :
  Extract.extract_date "Rechnung 24,12,2024 14:03" = Some "24,12,2024"
  /\ map Database.bon_date
       (Database.bons (import_db Database.empty (Fixtures.draft "24,12,2024" [] None)))
     = ["24,12,2024"]
  /\ Extract.extract_date "24.12,2024" = Some "24.12,2024"
  /\ map Database.bon_date
       (Database.bons (import_db Database.empty (Fixtures.draft "24.12,2024" [] None)))
     = ["12,2024-24"]
  /\ map Database.bon_date
       (Database.bons (import_db Database.empty (Fixtures.draft "24.12.2024" [] None)))
     = ["2024-12-24"].
Proof. vm_compute. repeat split. Qed.

(* ------------------------------------------------------------------ *)
(** ** C1: the entry rows of a commit *)

(** Claim C1, failing input: when an item's product already exists, the
    entry row gets the product's category id in place of its id.  In a
    draft Milch, Butter, Butter the categories and products are created
    once each, but the third entry links product 1 (Milch, whose category
    id is 1); on [catalog] the entry for Butter (product 3, category 2)
    links product 2 (Birne). *)
Theorem import_bon_links_category_id :
  let db := import_db Database.empty ImportFixtures.repeated in
  map Database.category_name (Database.categories db) = ["Milchprodukte"]
  /\ map (fun p => (Database.product_id p, Database.product_name p)) (Database.products db)
     = [(1%Z, "Milch"); (2%Z, "Butter")]
  /\ map Database.entry_product_id (Database.entries db) = [1%Z; 2%Z; 1%Z]
  /\ map Database.entry_product_id
       (Database.entries (import_db ImportFixtures.catalog ImportFixtures.known)) = [2%Z]
  /\ map (fun p => (Database.product_id p, Database.product_name p))
       (Database.products ImportFixtures.catalog)
     = [(1%Z, "Apfel"); (2%Z, "Birne"); (3%Z, "Butter")].
Proof. vm_compute. repeat split. Qed.

(* ------------------------------------------------------------------ *)
(** ** C5: the product matcher *)

Section MinByKey.

Context {A : Type} (f : A -> nat).

Let step := fun best y => if f y <? f best then y else best.

Lemma fold_min_keeps (p : A) :
  forall post, Forall (fun q => f p <= f q) post -> fold_left step post p = p.
Proof.
  induction post as [|y post IH]; intros H; [reflexivity|].
  inversion H as [|? ? Hy Hpost]; subst. simpl. unfold step at 2.
  destruct (f y <? f p) eqn:E; [apply Nat.ltb_lt in E; lia | now apply IH].
Qed.

Lemma fold_min_above (p : A) :
  forall pre b, f p < f b -> Forall (fun q => f p < f q) pre ->
  f p < f (fold_left step pre b).
Proof.
  induction pre as [|y pre IH]; intros b Hb H; [exact Hb|].
  inversion H as [|? ? Hy Hpre]; subst. simpl. apply IH; [|exact Hpre].
  unfold step. destruct (f y <? f b); assumption.
Qed.

(** The first element of least key is the one [min_by_key] returns. *)
Lemma min_by_key_first (pre post : list A) (p : A) :
  Forall (fun q => f p < f q) pre -> Forall (fun q => f p <= f q) post ->
  min_by_key f (pre ++ p :: post) = Some p.
Proof.
  intros Hpre Hpost. unfold min_by_key.
  destruct pre as [|x pre]; simpl.
  - f_equal. now apply fold_min_keeps.
  - inversion Hpre as [|? ? Hx Hpre']; subst.
    f_equal. fold step. rewrite fold_left_app. simpl.
    pose proof (fold_min_above p pre x Hx Hpre') as Hb.
    unfold step at 2. destruct (f p <? f (fold_left step pre x)) eqn:E.
    + now apply fold_min_keeps.
    + apply Nat.ltb_nlt in E. lia.
Qed.

Lemma fold_min_split :
  forall r seen best mid p,
  Forall (fun q => f best < f q) seen -> Forall (fun q => f best <= f q) mid ->
  fold_left step r best = p ->
  exists pre post, seen ++ best :: mid ++ r = pre ++ p :: post
    /\ Forall (fun q => f p < f q) pre /\ Forall (fun q => f p <= f q) post.
Proof.
  induction r as [|y r IH]; intros seen best mid p Hs Hm Hf; simpl in Hf.
  - subst p. exists seen, mid. rewrite app_nil_r. auto.
  - unfold step at 2 in Hf. destruct (f y <? f best) eqn:E.
    + apply Nat.ltb_lt in E.
      destruct (IH (seen ++ best :: mid) y [] p) as (pre & post & Heq & H1 & H2).
      * apply Forall_app. split.
        -- eapply Forall_impl; [|exact Hs]. intros q Hq; simpl in Hq. lia.
        -- constructor; [lia|]. eapply Forall_impl; [|exact Hm]. intros q Hq; simpl in Hq. lia.
      * constructor.
      * exact Hf.
      * exists pre, post. split; [|auto]. rewrite <- Heq.
        rewrite <- app_assoc. reflexivity.
    + apply Nat.ltb_nlt in E.
      destruct (IH seen best (mid ++ [y]) p) as (pre & post & Heq & H1 & H2).
      * exact Hs.
      * apply Forall_app. split; [exact Hm|]. constructor; [lia | constructor].
      * exact Hf.
      * exists pre, post. split; [|auto]. rewrite <- Heq.
        rewrite <- app_assoc. reflexivity.
Qed.

Lemma min_by_key_exists (l : list A) :
  l <> [] -> exists pre p post, l = pre ++ p :: post
    /\ Forall (fun q => f p < f q) pre /\ Forall (fun q => f p <= f q) post.
Proof.
  destruct l as [|x r]; intros Hl; [congruence|].
  destruct (fold_min_split r [] x [] (fold_left step r x)) as (pre & post & Heq & H1 & H2);
    [constructor | constructor | reflexivity |].
  exists pre, (fold_left step r x), post. auto.
Qed.

End MinByKey.

(** Claim C5: with no product in the catalog the item keeps its extracted
    name and an empty category; otherwise let [p] be the first catalog
    product at least distance from the name (every product before it is
    strictly farther, every one after it at least as far): below distance
    4 the item takes [p]'s name and the name of the first category with
    [p]'s category id (empty when there is none), at 4 or more it keeps
    the extracted name and an empty category.  Such a [p] exists whenever
    the catalog is not empty. *)
Theorem match_product_spec (damerau_levenshtein : string -> string -> nat)
  (db : Database.Database) (nm : string) :
  (Database.get_products db = [] -> match_product damerau_levenshtein db nm = ("", nm))
  /\ (forall pre p post,
      Database.get_products db = pre ++ p :: post ->
      Forall (fun q => damerau_levenshtein nm (Database.product_name p)
                       < damerau_levenshtein nm (Database.product_name q)) pre ->
      Forall (fun q => damerau_levenshtein nm (Database.product_name p)
                       <= damerau_levenshtein nm (Database.product_name q)) post ->
      (damerau_levenshtein nm (Database.product_name p) < 4 ->
       match_product damerau_levenshtein db nm =
         (match find (fun c => Z.eqb (Database.category_id c) (Database.product_category_id p))
                     (Database.get_categories db) with
          | Some c => Database.category_name c
          | None => ""
          end, Database.product_name p))
      /\ (4 <= damerau_levenshtein nm (Database.product_name p) ->
          match_product damerau_levenshtein db nm = ("", nm)))
  /\ (Database.get_products db <> [] ->
      exists pre p post, Database.get_products db = pre ++ p :: post
        /\ Forall (fun q => damerau_levenshtein nm (Database.product_name p)
                            < damerau_levenshtein nm (Database.product_name q)) pre
        /\ Forall (fun q => damerau_levenshtein nm (Database.product_name p)
                            <= damerau_levenshtein nm (Database.product_name q)) post).
Proof.
  split; [|split].
  - intros H. unfold match_product. rewrite H. reflexivity.
  - intros pre p post Hl Hpre Hpost.
    unfold match_product. rewrite Hl, (min_by_key_first _ pre post p Hpre Hpost).
    split; intros Hd.
    + apply Nat.ltb_lt in Hd. rewrite Hd. reflexivity.
    + destruct (_ <? 4) eqn:E; [apply Nat.ltb_lt in E; lia | reflexivity].
  - intros H. exact (min_by_key_exists _ _ H).
Qed.

(** Witness of [match_product_spec]: "Butte" against [catalog], where
    Butter (distance 1) comes after Apfel and Birne. *)
Lemma match_product_spec_witness :
  match_product Libs.damerau_levenshtein ImportFixtures.catalog "Butte"
  = ("Milchprodukte", "Butter").
Proof.
  rewrite (proj1 (proj1 (proj2 (match_product_spec Libs.damerau_levenshtein
             ImportFixtures.catalog "Butte"))
             [Database.mkProduct 1 1 "Apfel"; Database.mkProduct 2 1 "Birne"]
             (Database.mkProduct 3 2 "Butter") [] eq_refl
             ltac:(repeat (apply Forall_cons; [vm_compute; lia|]); apply Forall_nil)
             (Forall_nil _))
             ltac:(vm_compute; lia)).
  vm_compute. reflexivity.
Defined.

(* ------------------------------------------------------------------ *)
(** ** C4: the OCR line classifier *)

Lemma subseq_refl {A} (l : list A) : subseq l l.
Proof. induction l; constructor; assumption. Qed.

Lemma subseq_filter_l {A} (f : A -> bool) (l1 l2 : list A) :
  subseq l1 l2 -> subseq (filter f l1) l2.
Proof.
  induction 1 as [|x l1 l2 H IH|x l1 l2 H IH]; simpl.
  - constructor.
  - destruct (f x); [now constructor | now constructor].
  - now constructor.
Qed.

Lemma subseq_map {A B} (g : A -> B) (l1 l2 : list A) :
  subseq l1 l2 -> subseq (map g l1) (map g l2).
Proof. induction 1; simpl; constructor; assumption. Qed.

(** Claim C4, counterexample: a line whose last whitespace-separated token
    is a tab-separated "x" survives, since the code takes the last token of
    [split(" ")], here the whole line "12,3<TAB>x". *)
Lemma classify_tab_token :
  let line := ("12,3" ++ String "009"%char "x")%string in
  Classifier.classify line [] = [mkOcrEntry line Entry]
  /\ last_ws_token line = "x"
  /\ Classifier.has_digit (last_ws_token line) = false.
Proof. vm_compute. repeat split. Qed.

(** Claim C4, as the code has it: every line the classifier keeps is
    tagged [Entry], contains one of [, . : -], has a digit in the last
    piece of its [split(" ")] (its last space-separated token), and
    contains no blacklist string; the kept lines are the trimmed and
    stripped input lines with some dropped, in input order. *)
Theorem classify_survivors (ocr_text : string) (blacklist : list string) :
  (forall e, In e (Classifier.classify ocr_text blacklist) ->
     ocr_type e = Entry
     /\ Classifier.has_delim (name e) = true
     /\ Classifier.has_digit (Classifier.last_elem (name e)) = true
     /\ (forall b, In b blacklist -> contains (name e) b = false))
  /\ subseq (map name (Classifier.classify ocr_text blacklist))
            (map Classifier.strip_single (map trim (split "010"%char ocr_text))).
Proof.
  unfold Classifier.classify. split.
  - intros e He. apply in_map_iff in He as (line & <- & Hin). simpl.
    apply filter_In in Hin as (Hin & Hbl).
    apply filter_In in Hin as (Hin & Hdl).
    apply filter_In in Hin as (_ & Hdg).
    repeat split; try assumption.
    intros b Hb. apply negb_true_iff in Hbl.
    destruct (contains line b) eqn:C; [|reflexivity].
    unfold Classifier.blacklisted in Hbl.
    assert (existsb (fun elem => contains line elem) blacklist = true)
      by (apply existsb_exists; exists b; auto).
    congruence.
  - rewrite map_map. simpl. rewrite map_id.
    repeat apply subseq_filter_l. apply subseq_map, subseq_filter_l, subseq_refl.
Qed.

(* ------------------------------------------------------------------ *)
(** ** C7: re-running the conversion *)

Lemma convert_line_with_selection (dl : string -> string -> nat) db nb s e :
  convert_line dl db (with_selection nb s) e = with_selection (convert_line dl db nb e) s.
Proof.
  destruct nb as [d [its sel] pc pe po].
  unfold convert_line, with_selection; cbn.
  destruct (ocr_type e).
  - destruct (Extract.extract_date (name e)); reflexivity.
  - destruct (Extract.extract_name (name e)) as [n|]; [|reflexivity].
    destruct (Extract.extract_price (name e)); [|reflexivity].
    destruct (match_product dl db n); reflexivity.
  - destruct (Extract.extract_price (name e)); reflexivity.
Qed.

Lemma convert_line_keeps (dl : string -> string -> nat) db nb e :
  price_eq (convert_line dl db nb e) = price_eq nb
  /\ selected (bon_items (convert_line dl db nb e)) = selected (bon_items nb).
Proof.
  unfold convert_line. destruct (ocr_type e).
  - destruct (Extract.extract_date (name e)); split; reflexivity.
  - destruct (Extract.extract_name (name e)) as [n|]; [|split; reflexivity].
    destruct (Extract.extract_price (name e)); [|split; reflexivity].
    destruct (match_product dl db n); split; reflexivity.
  - destruct (Extract.extract_price (name e)); split; reflexivity.
Qed.

Lemma convert_fold_with_selection (dl : string -> string -> nat) db s :
  forall lines nb,
  fold_left (convert_line dl db) lines (with_selection nb s)
  = with_selection (fold_left (convert_line dl db) lines nb) s.
Proof.
  induction lines as [|e lines IH]; intros nb; [reflexivity|].
  simpl. rewrite convert_line_with_selection. apply IH.
Qed.

Lemma convert_fold_keeps (dl : string -> string -> nat) db :
  forall lines nb,
  price_eq (fold_left (convert_line dl db) lines nb) = price_eq nb
  /\ selected (bon_items (fold_left (convert_line dl db) lines nb)) = selected (bon_items nb).
Proof.
  induction lines as [|e lines IH]; intros nb; [split; reflexivity|].
  simpl. destruct (IH (convert_line dl db nb e)) as [H1 H2].
  destruct (convert_line_keeps dl db nb e) as [H3 H4]. split; congruence.
Qed.

Lemma convert_to_bon_draft (dl : string -> string -> nat) (a : App) :
  convert_to_bon dl a
  = Some (set_new_bon_list a (convert_draft dl (database a) (items (ocr_list a)) (new_bon_list a)),
          [GoConvertBonState; CalculateSummary]).
Proof. reflexivity. Qed.

Lemma convert_draft_idem (dl : string -> string -> nat) db lines nb0 :
  convert_draft dl db lines (convert_draft dl db lines nb0) = convert_draft dl db lines nb0.
Proof.
  unfold convert_draft at 1 3.
  remember (convert_draft dl db lines nb0) as nb3 eqn:F3.
  unfold convert_draft in F3.
  remember (fold_left (convert_line dl db) lines
              (mkNewBonList "" (set_items (bon_items nb0) []) 0%float (price_eq nb0) 0%float))
    as nb2 eqn:F2.
  destruct (convert_fold_keeps dl db lines
              (mkNewBonList "" (set_items (bon_items nb0) []) 0%float (price_eq nb0) 0%float))
    as [Peq _].
  rewrite <- F2 in Peq. cbn in Peq.
  assert (E1 : mkNewBonList "" (set_items (bon_items nb3) []) 0%float (price_eq nb3) 0%float
               = with_selection (mkNewBonList "" (set_items (bon_items nb0) []) 0%float
                                   (price_eq nb0) 0%float) (selected (bon_items nb3))).
  { unfold with_selection. cbn.
    replace (price_eq nb3) with (price_eq nb0); [reflexivity|].
    subst nb3. destruct (items (bon_items nb2)); cbn; rewrite Peq; reflexivity. }
  rewrite E1, convert_fold_with_selection, <- F2. subst nb3. clear.
  destruct nb2 as [d [its sel] pc pe po]. destruct its; reflexivity.
Qed.

(** Claim C7: converting the draft that a conversion produced, with the
    same OCR lines and database, yields the same application state (date,
    items, prices, reconciled flag, selection) and the same events. *)
Theorem convert_to_bon_idempotent (damerau_levenshtein : string -> string -> nat)
  (a a1 : App) (ev : list AppEvent) :
  convert_to_bon damerau_levenshtein a = Some (a1, ev) ->
  convert_to_bon damerau_levenshtein a1 = Some (a1, ev).
Proof.
  rewrite !convert_to_bon_draft. intros H. injection H as <- <-.
  cbn [database ocr_list new_bon_list set_new_bon_list].
  rewrite convert_draft_idem. reflexivity.
Qed.

(** Witness of [convert_to_bon_idempotent]: the OCR lines of the receipt
    fixture against [catalog]. *)
Lemma convert_to_bon_idempotent_witness :
  exists a1 ev,
    convert_to_bon Libs.damerau_levenshtein
      ImportFixtures.ocr_app = Some (a1, ev)
    /\ convert_to_bon Libs.damerau_levenshtein a1 = Some (a1, ev).
Proof.
  do 2 eexists. split; [reflexivity|].
  apply (convert_to_bon_idempotent Libs.damerau_levenshtein ImportFixtures.ocr_app).
  reflexivity.
Defined.

(* ------------------------------------------------------------------ *)
(** ** C6: the totals of the draft *)

Lemma draw_current_state (a : App) : current_state (draw a) = current_state a.
Proof. destruct a as [? ? st ? ? ? ? ? ? ? ? ?]; destruct st; reflexivity. Qed.

Lemma run_events_done dl approx img read (fuel : nat) (a : App) :
  run_events dl approx img read fuel a [] = Some (a, []).
Proof. destruct fuel; reflexivity. Qed.

Lemma calculate_summary_consistent (approx : F64.f64 -> F64.f64 -> bool) (a : App) :
  current_state a = ConvertBon \/ current_state a = EditPrice ->
  exists a', calculate_summary approx a = Some (a', [])
             /\ draft_consistent approx (new_bon_list a').
Proof.
  intros Hs. unfold calculate_summary.
  destruct Hs as [-> | ->]; eexists; (split; [reflexivity | split; reflexivity]).
Qed.

(** [CalculateSummary] handled in [ConvertBon]. *)
Lemma run_calculate dl approx img read (a : App) :
  current_state a = ConvertBon ->
  exists a2, run_events dl approx img read 1 a [CalculateSummary] = Some (a2, [])
             /\ draft_consistent approx (new_bon_list a2).
Proof.
  intros Hs. cbn [run_events app handle_event].
  destruct (calculate_summary_consistent approx (draw a)) as (a' & H & C).
  { left. rewrite draw_current_state. exact Hs. }
  rewrite H. exists a'. split; [reflexivity | exact C].
Qed.

Lemma list_render_items {A} (l : SelList A) : items (list_render l) = items l.
Proof.
  destruct l as [[|x r] [i|]]; unfold list_render; cbn; [reflexivity | reflexivity | |reflexivity].
  destruct (i <=? List.length r); reflexivity.
Qed.

Lemma draw_new_bon_list (a : App) :
  items (bon_items (new_bon_list (draw a))) = items (bon_items (new_bon_list a))
  /\ price_ocr (new_bon_list (draw a)) = price_ocr (new_bon_list a).
Proof.
  destruct a as [? ? st ? ? ? ? nb ? ? ? ?]; destruct st; cbn;
    rewrite ?list_render_items; split; reflexivity.
Qed.

(** [GoConvertBonState] then [CalculateSummary], from any state: the
    totals are recomputed over the same items and reported price. *)
Lemma run_go_calculate dl approx img read (a : App) :
  exists a2, run_events dl approx img read 2 a [GoConvertBonState; CalculateSummary]
             = Some (a2, [])
             /\ draft_consistent approx (new_bon_list a2)
             /\ current_state a2 = ConvertBon
             /\ items (bon_items (new_bon_list a2)) = items (bon_items (new_bon_list a))
             /\ price_ocr (new_bon_list a2) = price_ocr (new_bon_list a).
Proof.
  cbn [run_events app handle_event].
  set (a1 := set_state (draw a) ConvertBon).
  destruct (draw_new_bon_list a1) as [I1 P1].
  destruct (draw_new_bon_list a) as [I0 P0].
  unfold calculate_summary. rewrite draw_current_state. cbn [a1 current_state set_state].
  eexists. split; [reflexivity|]. cbn [new_bon_list set_new_bon_list bon_items price_ocr].
  split; [split; reflexivity|]. split; [reflexivity|].
  fold a1. rewrite I1, P1. cbn [a1 set_state new_bon_list]. split; assumption.
Qed.

Lemma key_x_convert (a a1 : App) (q : list AppEvent) :
  current_state a = ConvertBon -> key_x a = Some (a1, q) ->
  current_state a1 = ConvertBon /\ q = [CalculateSummary].
Proof.
  intros Hs. unfold key_x, is_state. rewrite Hs.
  destruct (selected (bon_items (new_bon_list a))) as [i|].
  - destruct (remove_nth i (items (bon_items (new_bon_list a)))); [|discriminate].
    intros H. injection H as <- <-. split; [exact Hs | reflexivity].
  - intros H. injection H as <- <-. split; [exact Hs | reflexivity].
Qed.

Lemma commit_edit_events (a a1 : App) (q : list AppEvent) :
  current_state a = EditPrice \/ current_state a = EditBonPrice ->
  commit_edit a = Some (a1, q) -> q = [GoConvertBonState; CalculateSummary].
Proof.
  intros [Hs|Hs]; unfold commit_edit; rewrite Hs; intros H; injection H as _ <-; reflexivity.
Qed.

(** Claim C6: after the conversion, the deletion of a draft item in
    [ConvertBon], or the commit of a price edit ([EditPrice]) or of a
    bon-price edit ([EditBonPrice]), once the events the operation queued
    are handled, [price_calc] is the sum ([F64.sum], the [f64] [Sum] of the
    code) of the prices of the current items and [price_eq] is [approx_eq]
    of [price_ocr] and [price_calc] ([Libs.approx_eq] is the comparison
    with ulps 2 and epsilon 1.0). *)
Theorem draft_totals_consistent (damerau_levenshtein : string -> string -> nat)
  (approx_eq : F64.f64 -> F64.f64 -> bool) (image_to_string : string -> option string)
  (read_ocr_files : list string -> list string)
  (op : DraftOp) (a a1 : App) (q : list AppEvent) :
  op_state_ok op (current_state a) ->
  draft_op damerau_levenshtein op a = Some (a1, q) ->
  exists a2,
    run_events damerau_levenshtein approx_eq image_to_string read_ocr_files
      (List.length q) a1 q = Some (a2, [])
    /\ draft_consistent approx_eq (new_bon_list a2).
Proof.
  intros Hok Hop. destruct op; cbn [draft_op] in Hop.
  - rewrite convert_to_bon_draft in Hop. injection Hop as _ <-.
    destruct (run_go_calculate damerau_levenshtein approx_eq image_to_string read_ocr_files a1)
      as (a2 & H & C & _). eauto.
  - destruct (current_state a) eqn:Hs; try contradiction.
    destruct (key_x_convert a a1 q Hs Hop) as [Hs1 ->]. apply run_calculate, Hs1.
  - destruct (current_state a) eqn:Hs; try contradiction.
    rewrite (commit_edit_events a a1 q (or_introl Hs) Hop).
    destruct (run_go_calculate damerau_levenshtein approx_eq image_to_string read_ocr_files a1)
      as (a2 & H & C & _). eauto.
  - destruct (current_state a) eqn:Hs; try contradiction.
    rewrite (commit_edit_events a a1 q (or_intror Hs) Hop).
    destruct (run_go_calculate damerau_levenshtein approx_eq image_to_string read_ocr_files a1)
      as (a2 & H & C & _). eauto.
Qed.

(** Witness of [draft_totals_consistent]: deleting Milch from
    [convert_app] leaves Brot, the total recomputed to its price. *)
Lemma draft_totals_consistent_witness :
  exists a1 q a2,
    draft_op Libs.damerau_levenshtein OpDeleteItem ImportFixtures.convert_app = Some (a1, q)
    /\ Fixtures.run (List.length q) a1 q = Some (a2, [])
    /\ draft_consistent Libs.approx_eq (new_bon_list a2).
Proof.
  destruct (draft_totals_consistent Libs.damerau_levenshtein Libs.approx_eq
              Libs.image_to_string Libs.read_ocr_files OpDeleteItem
              ImportFixtures.convert_app _ _ I eq_refl) as [a2 H].
  do 3 eexists. split; [reflexivity | exact H].
Defined.

(* ------------------------------------------------------------------ *)
(** ** C2: committing a price that does not parse *)

Lemma handle_key_enter_edit ta_input ta_clear_line ta_insert_str f64_to_string execute_sql
  (a : App) :
  current_state a = EditPrice \/ current_state a = EditBonPrice ->
  handle_key_events ta_input ta_clear_line ta_insert_str f64_to_string execute_sql a KEnter = commit_edit a.
Proof. intros [H|H]; unfold handle_key_events; rewrite H; reflexivity. Qed.

Lemma parse_edit_price_none (line : string) (rest : list string) :
  F64.parse_f64 (replace_char ","%char "."%char line) = None ->
  parse_edit_price (line :: rest) = 0%float.
Proof. intros H. unfold parse_edit_price. rewrite H. reflexivity. Qed.

(** Claim C2, counterexample: Enter on the price edit of Milch (2.49)
    with the buffer "abc" leaves the edit state for [ConvertBon] and sets
    the price to 0. *)
Lemma commit_edit_abc :
  match commit_edit ImportFixtures.edit_app with
  | Some (a1, q) =>
      match Fixtures.run (List.length q) a1 q with
      | Some (a2, rest) =>
          rest = [] /\ current_state a2 = ConvertBon
          /\ items (bon_items (new_bon_list a2)) = [Database.mkEntry "" "Milch" 0%float]
          /\ items (bon_items (new_bon_list ImportFixtures.edit_app)) = [Fixtures.milch]
      | None => False
      end
  | None => False
  end.
Proof. vm_compute. repeat split. Qed.

(** Claim C2, as the code has it: Enter in [EditPrice] or [EditBonPrice]
    is [commit_edit]; when the first buffer line, with ',' read as '.',
    does not parse as an [f64], the price is set to 0.0
    ([unwrap_or(0.0)]): the price of the selected item in [EditPrice], the
    reported bon price in [EditBonPrice].  After the queued events the
    application is back in [ConvertBon] with the totals recomputed. *)
Theorem commit_edit_unparsable (damerau_levenshtein : string -> string -> nat)
  (approx_eq : F64.f64 -> F64.f64 -> bool) (image_to_string : string -> option string)
  (read_ocr_files : list string -> list string)
  (a : App) (line : string) (rest : list string) :
  edit_field a = line :: rest ->
  F64.parse_f64 (replace_char ","%char "."%char line) = None ->
  (forall ta_input ta_clear_line ta_insert_str f64_to_string execute_sql,
     current_state a = EditPrice \/ current_state a = EditBonPrice ->
     handle_key_events ta_input ta_clear_line ta_insert_str f64_to_string execute_sql a KEnter
     = commit_edit a)
  /\ (current_state a = EditBonPrice ->
      exists a1 q a2, commit_edit a = Some (a1, q)
        /\ run_events damerau_levenshtein approx_eq image_to_string read_ocr_files
             (List.length q) a1 q = Some (a2, [])
        /\ current_state a2 = ConvertBon
        /\ price_ocr (new_bon_list a2) = 0%float
        /\ items (bon_items (new_bon_list a2)) = items (bon_items (new_bon_list a))
        /\ draft_consistent approx_eq (new_bon_list a2))
  /\ (current_state a = EditPrice ->
      forall i e, selected (bon_items (new_bon_list a)) = Some i ->
      nth_error (items (bon_items (new_bon_list a))) i = Some e ->
      exists a1 q a2, commit_edit a = Some (a1, q)
        /\ run_events damerau_levenshtein approx_eq image_to_string read_ocr_files
             (List.length q) a1 q = Some (a2, [])
        /\ current_state a2 = ConvertBon
        /\ items (bon_items (new_bon_list a2))
           = update_nth i (fun e => Database.mkEntry (Database.category e)
                                      (Database.product e) 0%float)
               (items (bon_items (new_bon_list a)))
        /\ draft_consistent approx_eq (new_bon_list a2)).
Proof.
  intros Hef Hp. pose proof (parse_edit_price_none line rest Hp) as P0.
  split; [|split].
  - intros. apply handle_key_enter_edit. assumption.
  - intros Hs. unfold commit_edit. rewrite Hs, Hef, P0.
    destruct (run_go_calculate damerau_levenshtein approx_eq image_to_string read_ocr_files
                (set_new_bon_list a (nb_set_price_ocr (new_bon_list a) 0%float)))
      as (a2 & H & C & S & I & P).
    eexists _, _, a2. split; [reflexivity|]. repeat (split; [assumption|]); assumption.
  - intros Hs i e Hi Hn. unfold commit_edit. rewrite Hs, Hef, P0, Hi, Hn.
    match goal with
    | |- exists a1 q a2, Some (?x, ?y) = Some (a1, q) /\ _ =>
        destruct (run_go_calculate damerau_levenshtein approx_eq image_to_string
                    read_ocr_files x) as (a2 & H & C & S & I & P);
        exists x, y, a2
    end.
    split; [reflexivity|]. repeat (split; [assumption|]); assumption.
Qed.

(** Witness of [commit_edit_unparsable]: the price edit of Milch with the
    buffer "abc". *)
Lemma commit_edit_unparsable_witness :
  exists a1 q a2, commit_edit ImportFixtures.edit_app = Some (a1, q)
    /\ Fixtures.run (List.length q) a1 q = Some (a2, [])
    /\ current_state a2 = ConvertBon
    /\ items (bon_items (new_bon_list a2)) = [Database.mkEntry "" "Milch" 0%float].
Proof.
  destruct (proj2 (proj2 (commit_edit_unparsable Libs.damerau_levenshtein Libs.approx_eq
              Libs.image_to_string Libs.read_ocr_files ImportFixtures.edit_app "abc" []
              eq_refl ltac:(vm_compute; reflexivity)))
              eq_refl 0 Fixtures.milch eq_refl eq_refl)
    as (a1 & q & a2 & H1 & H2 & H3 & H4 & _).
  exists a1, q, a2. split; [exact H1|]. split; [exact H2|]. split; [exact H3|].
  rewrite H4. reflexivity.
Defined.

(* ------------------------------------------------------------------ *)
(** ** C8: committing a blacklist entry *)

Lemma run_events_step dl approx img read (f : nat) (a : App) (ev : AppEvent)
  (rest : list AppEvent) :
  run_events dl approx img read (S f) a (ev :: rest)
  = match handle_event dl approx img read (draw a) ev with
    | Some (a', sent) => run_events dl approx img read f a' (rest ++ sent)
    | None => None
    end.
Proof. reflexivity. Qed.







(** Enter in [Blacklist] with a first line that is not one SQL string
    literal: the statement spliced from it is run as it is, and a failing
    one panics ([.expect]). *)
Lemma commit_blacklist_entry_quoted execute_sql (a : App) (line : string) (rest : list string) :
  edit_field a = line :: rest -> Database.sql_literal line = false ->
  commit_blacklist_entry execute_sql a =
  option_map (fun db => (set_database a db, [GoOcrState; UpdateFromDatabase]))
    (execute_sql (database a) (Database.add_blacklist_entry_query line)).
Proof.
  intros He Hq. unfold commit_blacklist_entry, add_blacklist_entry. rewrite He, Hq.
  destruct (execute_sql _ _); reflexivity.
Qed.

(* ------------------------------------------------------------------ *)
(** ** C10: NextItem and PreviousItem *)

(** On a rendered list the selection is in range, and [next_in] and
    [previous_in] succeed and move it by one without passing either end. *)
Lemma nav_rendered {A} (l : SelList A) :
  match selected (list_render l) with
  | Some i =>
      i < List.length (items (list_render l))
      /\ next_in (list_render l)
         = Some (mkSelList (items (list_render l))
                   (Some (if i <? List.length (items (list_render l)) - 1 then S i else i)),
                 i <? List.length (items (list_render l)) - 1)
      /\ previous_in (list_render l)
         = Some (mkSelList (items (list_render l)) (Some (if 0 <? i then i - 1 else i)), 0 <? i)
  | None => next_in (list_render l) = Some (list_render l, false)
            /\ previous_in (list_render l) = Some (list_render l, false)
  end.
Proof.
  destruct l as [[|x r] [i|]]; unfold list_render; cbn [items selected];
    try (split; reflexivity).
  set (n := List.length (x :: r)).
  assert (Hn : n = S (List.length r)) by reflexivity.
  assert (Hm : S (List.length r) - 1 = List.length r) by lia.
  destruct (i <? n) eqn:E; cbn [selected items]; fold n; rewrite Hn, Hm.
  - apply Nat.ltb_lt in E. split; [lia|].
    unfold next_in, previous_in. cbn [selected items List.length].
    split; [destruct (i <? List.length r); reflexivity|].
    destruct (0 <? i); reflexivity.
  - apply Nat.ltb_nlt in E. split; [lia|].
    unfold next_in, previous_in. cbn [selected items List.length].
    rewrite Nat.ltb_irrefl.
    split; [reflexivity | destruct (0 <? List.length r); reflexivity].
Qed.

Ltac nav_list l :=
  let N := fresh "N" in
  pose proof (nav_rendered l) as N;
  destruct (selected (list_render l)) as [i|];
  [ destruct N as (Hi & Hn & Hp); split; [exact Hi|]; rewrite Hn, Hp;
    split; eexists _, _; split; reflexivity
  | destruct N as (Hn & Hp); rewrite Hn, Hp; split; reflexivity ].

(** NextItem and PreviousItem on a rendered screen. *)
Lemma navigation_rendered (a : App) :
  match active_list (draw a) with
  | Some (n, Some i) =>
      i < n
      /\ (exists a' ev, next_item (draw a) = Some (a', ev)
                        /\ active_list a' = Some (n, Some (if i <? n - 1 then S i else i)))
      /\ (exists a' ev, previous_item (draw a) = Some (a', ev)
                        /\ active_list a' = Some (n, Some (if 0 <? i then i - 1 else i)))
  | _ => next_item (draw a) = Some (draw a, []) /\ previous_item (draw a) = Some (draw a, [])
  end.
Proof.
  destruct a as [bl cl st db ef il ip nb ob ol of run]; destruct st;
    cbn -[list_render next_in previous_in].
  - split; reflexivity.
  - nav_list cl.
  - nav_list (bon_items nb).
  - split; reflexivity.
  - split; reflexivity.
  - split; reflexivity.
  - split; reflexivity.
  - nav_list bl.
  - nav_list il.
  - nav_list ol.
Qed.



(* ================================================================== *)
(** * Further properties of the code *)

(* ------------------------------------------------------------------ *)
(** ** [ocr_mark_sum] and the locality of the marking handlers *)

Lemma ocr_mark_spec_gen (t : OcrType) (l : SelList OcrEntry) (i : nat) (e : OcrEntry) :
  t <> Entry -> selected l = Some i -> nth_error (items l) i = Some e ->
  (ocr_type e = Entry -> count_type t (items l) <> 0 -> ocr_mark t l = l)
  /\ (ocr_type e = Entry -> count_type t (items l) = 0 ->
      ocr_mark t l = set_items l (update_nth i (retag t) (items l))
      /\ count_type t (items (ocr_mark t l)) = 1)
  /\ (ocr_type e = t ->
      ocr_mark t l = set_items l (update_nth i (retag Entry) (items l))
      /\ count_type t (items (ocr_mark t l)) = count_type t (items l) - 1)
  /\ (ocr_type e <> Entry -> ocr_type e <> t -> ocr_mark t l = l)
  /\ (count_type t (items l) <= 1 -> count_type t (items (ocr_mark t l)) <= 1).
Proof.
  intros Ht Hs Hn.
  pose proof (count_type_update t (retag t) _ _ _ Hn) as UD.
  pose proof (count_type_update t (retag Entry) _ _ _ Hn) as UE.
  unfold retag in UD, UE; cbn [ocr_type] in UD, UE.
  assert (Ett : OcrType_eqb t t = true) by (apply OcrType_eqb_eq; reflexivity).
  assert (Ete : OcrType_eqb Entry t = false)
    by (destruct (OcrType_eqb Entry t) eqn:E; [apply OcrType_eqb_eq in E; congruence|reflexivity]).
  rewrite Ett, Ete in *.
  unfold ocr_mark. rewrite Hs, Hn.
  destruct (OcrType_eqb (ocr_type e) Entry) eqn:EE.
  - apply OcrType_eqb_eq in EE. rewrite EE in *. rewrite Ete in *.
    destruct (count_type t (items l) =? 0) eqn:Z0; cbn [andb].
    + apply Nat.eqb_eq in Z0.
      repeat split; intros; cbn [items set_items];
        first [exfalso; congruence | exfalso; lia | reflexivity | lia].
    + apply Nat.eqb_neq in Z0.
      repeat split; intros; first [exfalso; congruence | exfalso; lia | reflexivity | lia].
  - rewrite andb_false_r.
    destruct (OcrType_eqb (ocr_type e) t) eqn:ET.
    + apply OcrType_eqb_eq in ET.
      pose proof (count_type_nth t _ _ _ Hn ET).
      rewrite ET in *.
      repeat split; intros; cbn [items set_items];
        first [exfalso; congruence | reflexivity | lia].
    + assert (ET' : ocr_type e <> t) by (intro X; apply OcrType_eqb_eq in X; congruence).
      assert (EE' : ocr_type e <> Entry) by (intro X; apply OcrType_eqb_eq in X; congruence).
      repeat split; intros; first [exfalso; congruence | reflexivity | lia].
Qed.

(** MarkAsSum ([ocr_mark_sum], key 's') on the selected line: an [Entry]
    line becomes the [Sum] line when no line is tagged [Sum] and is left
    alone when one already is; the [Sum] line goes back to [Entry]; a
    [Date] line is left alone.  A list with at most one [Sum] line keeps
    at most one. *)
Theorem ocr_mark_sum_spec (l : SelList OcrEntry) (i : nat) (e : OcrEntry) :
  selected l = Some i -> nth_error (items l) i = Some e ->
  (ocr_type e = Entry -> count_type Sum (items l) <> 0 -> ocr_mark_sum l = l)
  /\ (ocr_type e = Entry -> count_type Sum (items l) = 0 ->
      ocr_mark_sum l = set_items l (update_nth i (retag Sum) (items l))
      /\ count_type Sum (items (ocr_mark_sum l)) = 1)
  /\ (ocr_type e = Sum ->
      ocr_mark_sum l = set_items l (update_nth i (retag Entry) (items l))
      /\ count_type Sum (items (ocr_mark_sum l)) = count_type Sum (items l) - 1)
  /\ (ocr_type e = Date -> ocr_mark_sum l = l)
  /\ (count_type Sum (items l) <= 1 -> count_type Sum (items (ocr_mark_sum l)) <= 1).
Proof.
  intros Hs Hn.
  destruct (ocr_mark_spec_gen Sum l i e ltac:(discriminate) Hs Hn) as (A1 & A2 & A3 & A4 & A5).
  unfold ocr_mark_sum.
  repeat split; auto; try apply A2; try apply A3; auto.
  intros HD. apply A4; rewrite HD; discriminate.
Qed.

(** Witness of [ocr_mark_sum_spec]: the cursor on the total line of
    [SumFixtures.lines], no [Sum] line yet. *)
Lemma ocr_mark_sum_spec_witness :
  ocr_mark_sum SumFixtures.lines
  = set_items SumFixtures.lines (update_nth 1 (retag Sum) (items SumFixtures.lines)).
Proof.
  exact (proj1 (proj1 (proj2 (ocr_mark_sum_spec SumFixtures.lines 1 _ eq_refl eq_refl))
                  eq_refl eq_refl)).
Defined.

Lemma map_update_nth_same {A B} (g : A -> B) (f : A -> A) :
  forall l i, (forall x, nth_error l i = Some x -> g (f x) = g x) ->
  map g (update_nth i f l) = map g l.
Proof.
  induction l as [|x r IH]; intros [|i] H; cbn; try reflexivity.
  - rewrite (H x eq_refl). reflexivity.
  - rewrite IH; [reflexivity | exact H].
Qed.

Lemma nth_error_update_nth_ne {A} (f : A -> A) :
  forall l i j, i <> j -> nth_error (update_nth i f l) j = nth_error l j.
Proof.
  induction l as [|x r IH]; intros [|i] [|j] H; cbn; try reflexivity; try lia.
  apply IH. lia.
Qed.

Lemma OcrType_eqb_neq (a b : OcrType) : a <> b -> OcrType_eqb a b = false.
Proof. intros H. destruct (OcrType_eqb a b) eqn:E; [apply OcrType_eqb_eq in E|]; congruence. Qed.

Lemma ocr_mark_local_gen (t : OcrType) (l : SelList OcrEntry) :
  t <> Entry ->
  map name (items (ocr_mark t l)) = map name (items l)
  /\ selected (ocr_mark t l) = selected l
  /\ (forall j, selected l <> Some j -> nth_error (items (ocr_mark t l)) j = nth_error (items l) j)
  /\ (forall u, u <> Entry -> u <> t ->
        map (fun e => OcrType_eqb (ocr_type e) u) (items (ocr_mark t l))
        = map (fun e => OcrType_eqb (ocr_type e) u) (items l)).
Proof.
  intros Ht. unfold ocr_mark.
  destruct (selected l) as [i|] eqn:Hs; [|repeat split; auto].
  destruct (nth_error (items l) i) as [e|] eqn:Hn; [|repeat split; auto].
  assert (K : forall x, map name (items (set_items l (update_nth i (retag x) (items l))))
                        = map name (items l)
                 /\ selected (set_items l (update_nth i (retag x) (items l))) = Some i
                 /\ (forall j, Some i <> Some j ->
                       nth_error (items (set_items l (update_nth i (retag x) (items l)))) j
                       = nth_error (items l) j)).
  { intros x. cbn [items selected set_items]. split; [|split; [exact Hs|]].
    - apply map_update_nth_same. reflexivity.
    - intros j Hj. apply nth_error_update_nth_ne. congruence. }
  destruct ((count_type t (items l) =? 0) && OcrType_eqb (ocr_type e) Entry) eqn:C1.
  - destruct (K t) as (K1 & K2 & K3). split; [exact K1|]. split; [exact K2|].
    split; [exact K3|]. intros u Hu1 Hu2. cbn [items set_items].
    apply map_update_nth_same. intros x Hx. rewrite Hn in Hx. injection Hx as <-.
    apply andb_true_iff in C1. destruct C1 as [_ C1]. apply OcrType_eqb_eq in C1.
    cbn [retag ocr_type]. rewrite C1, !OcrType_eqb_neq; congruence.
  - destruct (OcrType_eqb (ocr_type e) t) eqn:C2; [|repeat split; auto].
    destruct (K Entry) as (K1 & K2 & K3). split; [exact K1|]. split; [exact K2|].
    split; [exact K3|]. intros u Hu1 Hu2. cbn [items set_items].
    apply map_update_nth_same. intros x Hx. rewrite Hn in Hx. injection Hx as <-.
    apply OcrType_eqb_eq in C2.
    cbn [retag ocr_type]. rewrite C2, !OcrType_eqb_neq; congruence.
Qed.

(** MarkAsDate and MarkAsSum touch only the selected line and only its
    tag: the names and the selection are kept, every other line is
    unchanged, and a line tagged with a third type keeps it; so marking
    the date never moves or clears the [Sum] line, and marking the sum
    never moves or clears the [Date] line. *)
Theorem ocr_mark_local :
  (forall l : SelList OcrEntry,
     map name (items (ocr_mark_date l)) = map name (items l)
     /\ selected (ocr_mark_date l) = selected l
     /\ (forall j, selected l <> Some j ->
           nth_error (items (ocr_mark_date l)) j = nth_error (items l) j)
     /\ map (fun e => OcrType_eqb (ocr_type e) Sum) (items (ocr_mark_date l))
        = map (fun e => OcrType_eqb (ocr_type e) Sum) (items l))
  /\ (forall l : SelList OcrEntry,
     map name (items (ocr_mark_sum l)) = map name (items l)
     /\ selected (ocr_mark_sum l) = selected l
     /\ (forall j, selected l <> Some j ->
           nth_error (items (ocr_mark_sum l)) j = nth_error (items l) j)
     /\ map (fun e => OcrType_eqb (ocr_type e) Date) (items (ocr_mark_sum l))
        = map (fun e => OcrType_eqb (ocr_type e) Date) (items l)).
Proof.
  split; intros l.
  - destruct (ocr_mark_local_gen Date l ltac:(discriminate)) as (A1 & A2 & A3 & A4).
    unfold ocr_mark_date. split; [exact A1|]. split; [exact A2|]. split; [exact A3|].
    apply A4; discriminate.
  - destruct (ocr_mark_local_gen Sum l ltac:(discriminate)) as (A1 & A2 & A3 & A4).
    unfold ocr_mark_sum. split; [exact A1|]. split; [exact A2|]. split; [exact A3|].
    apply A4; discriminate.
Qed.

(* ------------------------------------------------------------------ *)
(** ** The field extractors *)

Lemma chars_str_of_list (l : list ascii) : chars (str_of_list l) = l.
Proof. induction l as [|c r IH]; [reflexivity|]. cbn. f_equal. exact IH. Qed.

Lemma chars_append (s1 s2 : string) : chars (s1 ++ s2) = chars s1 ++ chars s2.
Proof. induction s1 as [|c s IH]; [reflexivity|]. cbn. f_equal. exact IH. Qed.

Lemma extract_name_cons (c : ascii) (s : string) :
  Extract.extract_name (String c s)
  = match Extract.extract_name s with
    | Some p => Some (String c p)
    | None => if Ascii.eqb c " "%char then Some EmptyString else None
    end.
Proof.
  unfold Extract.extract_name, chars. cbn [list_ascii_of_string].
  match goal with
  | |- option_map _ (match ?x with Some _ => _ | None => _ end) = _ => destruct x
  end; cbn; [reflexivity|]. destruct (Ascii.eqb c " "%char); reflexivity.
Qed.

Lemma extract_name_none (line : string) :
  Extract.extract_name line = None <-> ~ In " "%char (chars line).
Proof.
  induction line as [|c s IH]; [split; [intros _ []|reflexivity]|].
  rewrite extract_name_cons. cbn [chars list_ascii_of_string In]. fold (chars s).
  destruct (Extract.extract_name s) eqn:E.
  - split; [discriminate|]. intros H. exfalso. apply H. right.
    destruct (in_dec ascii_dec " "%char (chars s)) as [Hin|Hnin]; [exact Hin|].
    apply IH in Hnin. discriminate.
  - destruct (Ascii.eqb c " "%char) eqn:C.
    + apply Ascii.eqb_eq in C. subst c. split; [discriminate|]. intros H. exfalso. apply H.
      left. reflexivity.
    + apply Ascii.eqb_neq in C. split; [|reflexivity]. intros _ [H|H]; [congruence|].
      apply (proj1 IH eq_refl H).
Qed.

(** [extract_name] ([rsplit_once(' ')]) yields exactly the text before
    the last space: [Some n] when the line is [n], a space and a part
    without spaces, and [None] exactly when the line has no space (so a
    line ending in a space has the whole line but that space as name). *)
Theorem extract_name_spec (line : string) :
  (forall n, Extract.extract_name line = Some n
             <-> exists w, line = (n ++ String " " w)%string /\ ~ In " "%char (chars w))
  /\ (Extract.extract_name line = None <-> ~ In " "%char (chars line)).
Proof.
  split; [|apply extract_name_none].
  induction line as [|c s IH]; intros n.
  - split; [discriminate|]. intros (w & H & _). destruct n; discriminate.
  - rewrite extract_name_cons. split.
    + destruct (Extract.extract_name s) as [p|] eqn:E.
      * intros H. injection H as <-. destruct (proj1 (IH p) eq_refl) as (w & -> & Hw).
        exists w. split; [reflexivity | exact Hw].
      * destruct (Ascii.eqb c " "%char) eqn:C; [|discriminate].
        apply Ascii.eqb_eq in C. subst c. intros H. injection H as <-.
        exists s. split; [reflexivity|]. apply extract_name_none. exact E.
    + intros (w & Hl & Hw). destruct n as [|c' n'].
      * cbn in Hl. injection Hl as Hc Hs. subst c s.
        rewrite (proj2 (extract_name_none w) Hw). reflexivity.
      * cbn in Hl. injection Hl as Hc Hs. subst c.
        rewrite (proj2 (IH n') (ex_intro _ w (conj Hs Hw))). reflexivity.
Qed.

Lemma find_first_suffixes {A} (m : list ascii -> option A) (x : A) :
  forall l, Extract.find_first m (Extract.suffixes l) = Some x ->
  exists pre suf, l = pre ++ suf /\ m suf = Some x
                  /\ (forall k, k < List.length pre -> m (skipn k l) = None).
Proof.
  induction l as [|c r IH]; cbn [Extract.suffixes Extract.find_first].
  - destruct (m []) eqn:E; intros H; [|discriminate]. injection H as <-.
    exists [], []. split; [reflexivity|]. split; [exact E|]. intros k Hk. cbn in Hk. lia.
  - destruct (m (c :: r)) eqn:E; intros H.
    + injection H as <-. exists [], (c :: r). split; [reflexivity|]. split; [exact E|].
      intros k Hk. cbn in Hk. lia.
    + destruct (IH H) as (pre & suf & Hl & Hm & Hk).
      exists (c :: pre), suf. split; [rewrite Hl; reflexivity|]. split; [exact Hm|].
      intros [|k] Hlt; [exact E|]. cbn [skipn]. apply Hk. cbn in Hlt. lia.
Qed.

Lemma date_at_some (l : list ascii) (d : string) :
  Extract.date_at l = Some d ->
  exists d1 d2 s1 d3 d4 s2 d5 d6 d7 d8 rest,
    l = [d1; d2; s1; d3; d4; s2; d5; d6; d7; d8] ++ rest
    /\ d = str_of_list [d1; d2; s1; d3; d4; s2; d5; d6; d7; d8]
    /\ forallb Chars.is_ascii_digit [d1; d2; d3; d4; d5; d6; d7; d8] = true
    /\ Extract.is_dot_comma s1 = true /\ Extract.is_dot_comma s2 = true.
Proof.
  unfold Extract.date_at.
  destruct l as [|d1 [|d2 [|s1 [|d3 [|d4 [|s2 [|d5 [|d6 [|d7 [|d8 rest]]]]]]]]]];
    try discriminate.
  destruct (forallb Chars.is_ascii_digit [d1; d2; d3; d4; d5; d6; d7; d8]
            && Extract.is_dot_comma s1 && Extract.is_dot_comma s2) eqn:C; [|discriminate].
  intros H. injection H as <-. apply andb_true_iff in C. destruct C as [C C3].
  apply andb_true_iff in C. destruct C as [C1 C2].
  exists d1, d2, s1, d3, d4, s2, d5, d6, d7, d8, rest. repeat split; assumption.
Qed.

(** [extract_date] returns the leftmost match of
    [\d{2}[\.,]\d{2}[\.,]\d{4}] in the line: a ten-character piece of the
    line, two digits, a '.' or ',', two digits, a '.' or ',', four digits,
    with no such match starting earlier. *)
Theorem extract_date_spec (line d : string) :
  Extract.extract_date line = Some d ->
  exists pre post, chars line = pre ++ chars d ++ post
    /\ (forall k, k < List.length pre -> Extract.date_at (skipn k (chars line)) = None)
    /\ exists d1 d2 s1 d3 d4 s2 d5 d6 d7 d8,
         chars d = [d1; d2; s1; d3; d4; s2; d5; d6; d7; d8]
         /\ forallb Chars.is_ascii_digit [d1; d2; d3; d4; d5; d6; d7; d8] = true
         /\ Extract.is_dot_comma s1 = true /\ Extract.is_dot_comma s2 = true.
Proof.
  unfold Extract.extract_date. intros H.
  destruct (find_first_suffixes Extract.date_at d (chars line) H) as (pre & suf & Hl & Hm & Hk).
  destruct (date_at_some suf d Hm)
    as (d1 & d2 & s1 & d3 & d4 & s2 & d5 & d6 & d7 & d8 & rest & Hs & Hd & C1 & C2 & C3).
  exists pre, rest. rewrite Hd, chars_str_of_list. split; [rewrite Hl, Hs; reflexivity|].
  split; [exact Hk|].
  exists d1, d2, s1, d3, d4, s2, d5, d6, d7, d8. repeat split; assumption.
Qed.

(** Witness of [extract_date_spec]: a receipt footer with a date and a
    time. *)
Lemma extract_date_spec_witness :
  Extract.extract_date "Kassenbon 24.12.2024 14:03" = Some "24.12.2024"
  /\ exists pre post, chars "Kassenbon 24.12.2024 14:03" = pre ++ chars "24.12.2024" ++ post.
Proof.
  split; [vm_compute; reflexivity|].
  destruct (extract_date_spec "Kassenbon 24.12.2024 14:03" "24.12.2024"
              ltac:(vm_compute; reflexivity)) as (pre & post & H & _).
  exists pre, post. exact H.
Defined.

(* ------------------------------------------------------------------ *)
(** ** What [convert_to_bon] builds *)

Lemma last_cons_default {A} : forall (r : list A) (x d : A), last (x :: r) d = last r x.
Proof.
  induction r as [|y r IH]; intros x d; [reflexivity|].
  change (last (x :: y :: r) d) with (last (y :: r) d). rewrite !IH. reflexivity.
Qed.

Lemma convert_fold_result (dl : string -> string -> nat) (db : Database.Database) :
  forall lines nb,
  let nb2 := fold_left (convert_line dl db) lines nb in
  items (bon_items nb2)
  = items (bon_items nb)
    ++ flat_map (fun e => match ocr_type e with
                          | Entry =>
                              match Extract.extract_name (name e), Extract.extract_price (name e) with
                              | Some n, Some p =>
                                  [Database.mkEntry (fst (match_product dl db n))
                                     (snd (match_product dl db n)) p]
                              | _, _ => []
                              end
                          | _ => []
                          end) lines
  /\ date nb2 = last (flat_map (fun e => match ocr_type e with
                                         | Date => match Extract.extract_date (name e) with
                                                   | Some d => [d] | None => [] end
                                         | _ => []
                                         end) lines) (date nb)
  /\ price_ocr nb2 = last (flat_map (fun e => match ocr_type e with
                                              | Sum => match Extract.extract_price (name e) with
                                                       | Some p => [p] | None => [] end
                                              | _ => []
                                              end) lines) (price_ocr nb)
  /\ selected (bon_items nb2) = selected (bon_items nb).
Proof.
  induction lines as [|e lines IH]; intros nb; cbn zeta.
  - rewrite app_nil_r. repeat split.
  - cbn [fold_left flat_map]. destruct (IH (convert_line dl db nb e)) as (I1 & I2 & I3 & I4).
    rewrite I1, I2, I3, I4. clear I1 I2 I3 I4.
    unfold convert_line. destruct (ocr_type e).
    + destruct (Extract.extract_date (name e)) as [d|]; cbn [app];
        rewrite ?last_cons_default; repeat split.
    + destruct (Extract.extract_name (name e)) as [n|]; [|repeat split].
      destruct (Extract.extract_price (name e)) as [p|]; [|repeat split].
      destruct (match_product dl db n) as [c pr]; cbn. rewrite <- app_assoc. repeat split.
    + destruct (Extract.extract_price (name e)) as [p|]; cbn [app];
        rewrite ?last_cons_default; repeat split.
Qed.

(** ConvertToBon builds the draft from the OCR lines alone, replacing
    the previous one: one item per [Entry] line that has a name and a
    price, in line order, with the category and product the matcher
    gives; [Entry] lines without name or price, and [Date] and [Sum]
    lines, add no item.  The date is the one of the last [Date] line with
    a date ("" if none), the reported total the price of the last [Sum]
    line with a price (0 if none); the first item is selected.  Only the
    draft changes, and the events are [GoConvertBonState] and
    [CalculateSummary]. *)
Theorem convert_to_bon_result (damerau_levenshtein : string -> string -> nat) (a : App) :
  exists a1, convert_to_bon damerau_levenshtein a
             = Some (a1, [GoConvertBonState; CalculateSummary])
  /\ a1 = set_new_bon_list a (new_bon_list a1)
  /\ items (bon_items (new_bon_list a1))
     = flat_map (fun e => match ocr_type e with
                          | Entry =>
                              match Extract.extract_name (name e), Extract.extract_price (name e) with
                              | Some n, Some p =>
                                  [Database.mkEntry
                                     (fst (match_product damerau_levenshtein (database a) n))
                                     (snd (match_product damerau_levenshtein (database a) n)) p]
                              | _, _ => []
                              end
                          | _ => []
                          end) (items (ocr_list a))
  /\ date (new_bon_list a1)
     = last (flat_map (fun e => match ocr_type e with
                                | Date => match Extract.extract_date (name e) with
                                          | Some d => [d] | None => [] end
                                | _ => []
                                end) (items (ocr_list a))) ""
  /\ price_ocr (new_bon_list a1)
     = last (flat_map (fun e => match ocr_type e with
                                | Sum => match Extract.extract_price (name e) with
                                         | Some p => [p] | None => [] end
                                | _ => []
                                end) (items (ocr_list a))) 0%float
  /\ selected (bon_items (new_bon_list a1))
     = match items (bon_items (new_bon_list a1)) with
       | [] => selected (bon_items (new_bon_list a))
       | _ => Some 0
       end.
Proof.
  rewrite convert_to_bon_draft. eexists. split; [reflexivity|].
  cbn [new_bon_list set_new_bon_list]. split; [reflexivity|].
  unfold convert_draft.
  set (nb1 := mkNewBonList "" (set_items (bon_items (new_bon_list a)) []) 0%float
                (price_eq (new_bon_list a)) 0%float).
  destruct (convert_fold_result damerau_levenshtein (database a) (items (ocr_list a)) nb1)
    as (I & D & P & S).
  revert I D P S.
  generalize (fold_left (convert_line damerau_levenshtein (database a)) (items (ocr_list a)) nb1).
  intros nb2 I D P S. cbn [nb1 bon_items items set_items date price_ocr selected] in I, D, P, S.
  destruct nb2 as [d [its sel] pc pe po]. cbn in I, D, P, S |- *. subst.
  destruct (flat_map _ (items (ocr_list a))); cbn; repeat split.
Qed.

(* ------------------------------------------------------------------ *)
(** ** Facts of the drawn screen *)

Lemma draw_frame (a : App) :
  current_state (draw a) = current_state a
  /\ database (draw a) = database a
  /\ ocr_file (draw a) = ocr_file a
  /\ ocr_blacklist (draw a) = ocr_blacklist a
  /\ edit_field (draw a) = edit_field a
  /\ import_path (draw a) = import_path a
  /\ items (ocr_list (draw a)) = items (ocr_list a)
  /\ items (bon_list (draw a)) = items (bon_list a)
  /\ items (import_list (draw a)) = items (import_list a)
  /\ items (category_list (draw a)) = items (category_list a)
  /\ date (new_bon_list (draw a)) = date (new_bon_list a)
  /\ price_calc (new_bon_list (draw a)) = price_calc (new_bon_list a)
  /\ price_eq (new_bon_list (draw a)) = price_eq (new_bon_list a)
  /\ price_ocr (new_bon_list (draw a)) = price_ocr (new_bon_list a)
  /\ items (bon_items (new_bon_list (draw a))) = items (bon_items (new_bon_list a)).
Proof.
  destruct a as [bl cl st db ef il ip [d [its sel] pc pe po] ob ol of run];
    destruct st; cbn -[list_render]; rewrite ?list_render_items; repeat split.
Qed.


Lemma list_render_sel {A} (l : SelList A) :
  match selected (list_render l) with
  | Some i => i < List.length (items l)
  | None => True
  end.
Proof.
  pose proof (nav_rendered l) as N. rewrite list_render_items in N.
  destruct (selected (list_render l)); [apply N | exact I].
Qed.

(* ------------------------------------------------------------------ *)
(** ** Where a key press can panic *)

Lemma sel_in_range_render {A} (l : SelList A) : sel_in_range (list_render l).
Proof.
  pose proof (list_render_sel l) as R. unfold sel_in_range. rewrite list_render_items.
  destruct (selected (list_render l)); [exact R | exact I].
Qed.

Lemma nth_error_in_range {A} (l : SelList A) :
  sel_in_range l ->
  match selected l with Some i => exists x, nth_error (items l) i = Some x | None => True end.
Proof.
  unfold sel_in_range. destruct (selected l) as [i|]; [|trivial]. intros H.
  destruct (nth_error (items l) i) eqn:E; [eexists; reflexivity|].
  apply nth_error_None in E. lia.
Qed.

Lemma remove_nth_some {A} : forall (l : list A) i, i < List.length l -> remove_nth i l <> None.
Proof.
  induction l as [|x r IH]; intros [|i] H; cbn in H |- *; try lia; try discriminate.
  destruct (remove_nth i r) eqn:E; [discriminate|]. exfalso. apply (IH i); [lia | exact E].
Qed.

Lemma draw_sel_in_range (a : App) :
  (current_state a = OCR -> sel_in_range (ocr_list (draw a)))
  /\ (current_state a = Import -> sel_in_range (import_list (draw a)))
  /\ (current_state a = ConvertBon -> sel_in_range (bon_items (new_bon_list (draw a))))
  /\ (sel_in_range (bon_items (new_bon_list a)) -> sel_in_range (bon_items (new_bon_list (draw a)))).
Proof.
  destruct a as [bl cl st db ef il ip nb ob ol of run]; destruct st; cbn -[list_render];
    repeat split; intros; try discriminate; try apply sel_in_range_render; assumption.
Qed.

Lemma sel_ok_render {A} (l : SelList A) : sel_ok (list_render l) = true.
Proof.
  pose proof (sel_in_range_render l) as R. unfold sel_in_range in R. unfold sel_ok.
  destruct (selected (list_render l)); [apply Nat.ltb_lt; exact R | reflexivity].
Qed.

(** On a terminal where every list has room, drawing never panics and
    leaves the lists as [draw] has them. *)
Lemma draw_in_roomy (a : App) : draw_in roomy a = Some (draw a).
Proof.
  destruct a as [bl cl st db ef il ip nb ob ol of run]; unfold draw_in, draw;
    destruct st; cbn -[list_render sel_ok]; rewrite sel_ok_render; reflexivity.
Qed.

Lemma refill_some ta_clear_line ta_insert_str {A} (a : App) (l : SelList A) (txt : A -> string) :
  sel_in_range l -> refill ta_clear_line ta_insert_str a l txt <> None.
Proof.
  intros H. apply nth_error_in_range in H. unfold refill.
  destruct (selected l); [|discriminate]. destruct H as [x ->]. discriminate.
Qed.

Lemma key_x_some (a : App) :
  (current_state a = OCR -> sel_in_range (ocr_list a)) ->
  (current_state a = ConvertBon -> sel_in_range (bon_items (new_bon_list a))) ->
  key_x a <> None.
Proof.
  intros H1 H2. unfold key_x, is_state.
  destruct (current_state a) eqn:Hs; try discriminate.
  - specialize (H2 eq_refl). unfold sel_in_range in H2.
    destruct (selected (bon_items (new_bon_list a))) as [i|]; [|discriminate].
    destruct (remove_nth i _) eqn:E; [discriminate|]. exfalso. exact (remove_nth_some _ _ H2 E).
  - specialize (H1 eq_refl). unfold sel_in_range in H1.
    destruct (selected (ocr_list a)) as [i|]; [|discriminate].
    destruct (remove_nth i _) eqn:E; [discriminate|]. exfalso. exact (remove_nth_some _ _ H1 E).
Qed.

Lemma normal_key_some ta_clear_line ta_insert_str f64_to_string (a : App) (k : Key) :
  (current_state a = OCR -> sel_in_range (ocr_list a)) ->
  (current_state a = Import -> sel_in_range (import_list a)) ->
  (current_state a = ConvertBon -> sel_in_range (bon_items (new_bon_list a))) ->
  sel_in_range (bon_items (new_bon_list a)) ->
  normal_key ta_clear_line ta_insert_str f64_to_string a k <> None.
Proof.
  intros H1 H2 H3 H4.
  pose proof (key_x_some a H1 H3) as Kx.
  pose proof (refill_some ta_clear_line ta_insert_str a _ Database.product H4) as Rn.
  pose proof (refill_some ta_clear_line ta_insert_str a _
                (fun e => f64_to_string (Database.price e)) H4) as Rp.
  destruct k as [| |c|n]; unfold normal_key.
  - unfold is_state. destruct (current_state a) eqn:Hs; cbn; try discriminate.
    specialize (H2 eq_refl). apply nth_error_in_range in H2.
    destruct (selected (import_list a)); [|discriminate]. destruct H2 as [x ->]. discriminate.
  - destruct (is_state Category a); discriminate.
  - destruct c as [[] [] [] [] [] [] [] []]; try discriminate;
      try (destruct (is_state _ a); discriminate);
      try exact Kx;
      try (unfold with_events;
           match goal with |- context [refill ?x1 ?x2 ?x3 ?x4 ?x5] =>
             destruct (refill x1 x2 x3 x4 x5) eqn:E end; [discriminate | contradiction]).
    unfold is_state. destruct (current_state a) eqn:Hs; cbn; try discriminate.
    specialize (H1 eq_refl).
    pose proof (refill_some ta_clear_line ta_insert_str a _ name H1) as Rb.
    unfold with_events.
    match goal with |- context [refill ?x1 ?x2 ?x3 ?x4 ?x5] =>
      destruct (refill x1 x2 x3 x4 x5) eqn:E end; [discriminate | contradiction].
  - discriminate.
Qed.

(** On a terminal where every list has room, a key press is handled on
    the screen just drawn, and there it never panics, as long as the
    edit buffer has a line ([TextArea] always has one) whose text is one
    SQL literal (Enter in the blacklist and category editors inserts it)
    and the draft's selection is within its items (rendering keeps it so
    on the screens that show the draft; 'n' and 'p' read the selected
    draft item on every screen).  The selected OCR line ('b', 'x'),
    import file (Enter) and draft item ('x') are always there. *)
Theorem handle_key_no_panic ta_input ta_clear_line ta_insert_str f64_to_string execute_sql
  (a : App) (k : Key) (line : string) (rest : list string) :
  edit_field a = line :: rest -> Database.sql_literal line = true ->
  sel_in_range (bon_items (new_bon_list a)) ->
  handle_key_events ta_input ta_clear_line ta_insert_str f64_to_string execute_sql (draw a) k
  <> None.
Proof.
  intros Hl Hq H4.
  assert (Hef : edit_field a <> []) by (rewrite Hl; discriminate).
  destruct (draw_frame a) as (Fs & _ & _ & _ & Fe & _).
  destruct (draw_sel_in_range a) as (D1 & D2 & D3 & D4).
  assert (NK : normal_key ta_clear_line ta_insert_str f64_to_string (draw a) k <> None).
  { apply normal_key_some; rewrite ?Fs; auto. }
  unfold handle_key_events. rewrite Fs.
  destruct (current_state a) eqn:Hs; try exact NK.
  - destruct k; try discriminate. unfold commit_blacklist_entry, add_blacklist_entry.
    rewrite Fe, Hl, Hq. discriminate.
  - destruct k; try discriminate. unfold commit_edit. rewrite Fs. discriminate.
  - destruct k; try discriminate. rewrite Fe, Hl.
    destruct (existsb _ _); [discriminate|]. unfold create_category. rewrite Hq.
    discriminate.
  - destruct k; try discriminate. unfold commit_edit. rewrite Fs, Fe.
    destruct (edit_field a); [congruence | discriminate].
  - destruct k; try discriminate. unfold commit_edit. rewrite Fs. discriminate.
Qed.


(** Witness of [handle_key_no_panic]: Enter in the price editor of
    [edit_app], whose buffer holds "abc" and whose only item is selected. *)
Lemma handle_key_no_panic_witness :
  handle_key_events (fun l _ => l) (fun l => l) (fun l _ => l) (fun _ => "") Libs.execute_sql
    (draw ImportFixtures.edit_app) KEnter <> None.
Proof.
  exact (handle_key_no_panic (fun l _ => l) (fun l => l) (fun l _ => l) (fun _ => "")
           Libs.execute_sql ImportFixtures.edit_app KEnter "abc" [] eq_refl eq_refl
           ltac:(unfold sel_in_range; cbn; lia)).
Defined.

(* ------------------------------------------------------------------ *)
(** ** Deleting with 'x' *)

Lemma remove_nth_spec {A} :
  forall (l : list A) i, i < List.length l -> remove_nth i l = Some (firstn i l ++ skipn (S i) l).
Proof.
  induction l as [|x r IH]; intros [|i] H; cbn in H |- *; try lia; [reflexivity|].
  rewrite IH by lia. reflexivity.
Qed.

Lemma remove_nth_none {A} :
  forall (l : list A) i, List.length l <= i -> remove_nth i l = None.
Proof.
  induction l as [|x r IH]; intros [|i] H; cbn in H |- *; try lia; try reflexivity.
  rewrite IH by lia. reflexivity.
Qed.

(** 'x' deletes exactly the selected OCR line on the OCR screen, and the
    selected draft item on the conversion screen, where it also queues
    CalculateSummary; the other elements keep their order, the selection
    and everything else are kept.  With no selection nothing is deleted,
    and with a selection past the end [Vec::remove] panics.  On a
    terminal where every list has room the drawn screen never has such a
    selection; on a smaller one it can (a list shrunk by 'x' is not
    clamped). *)
Theorem key_x_removes_selected ta_input ta_clear_line ta_insert_str f64_to_string execute_sql
  (a : App) :
  let x := handle_key_events ta_input ta_clear_line ta_insert_str f64_to_string execute_sql
             a (KChar "x") in
  (current_state a = OCR ->
   match selected (ocr_list a) with
   | Some i =>
       if i <? List.length (items (ocr_list a))
       then x = Some (set_ocr_list a (set_items (ocr_list a)
                        (firstn i (items (ocr_list a)) ++ skipn (S i) (items (ocr_list a)))), [])
       else x = None
   | None => x = Some (a, [])
   end)
  /\ (current_state a = ConvertBon ->
   let nb := new_bon_list a in
   match selected (bon_items nb) with
   | Some i =>
       if i <? List.length (items (bon_items nb))
       then x = Some (set_new_bon_list a (nb_set_items nb (set_items (bon_items nb)
                        (firstn i (items (bon_items nb)) ++ skipn (S i) (items (bon_items nb))))),
                      [CalculateSummary])
       else x = None
   | None => x = Some (a, [CalculateSummary])
   end)
  /\ (current_state a = OCR -> sel_in_range (ocr_list (draw a)))
  /\ (current_state a = ConvertBon -> sel_in_range (bon_items (new_bon_list (draw a)))).
Proof.
  intros x. destruct (draw_sel_in_range a) as (D1 & _ & D3 & _).
  split; [|split; [|split; [exact D1 | exact D3]]]; intros Hs; unfold x, handle_key_events;
    rewrite Hs; change (normal_key _ _ _ a (KChar "x")) with (key_x a);
    unfold key_x, is_state; rewrite Hs; cbn -[remove_nth Nat.ltb skipn].
  - destruct (selected (ocr_list a)) as [i|]; [|reflexivity].
    destruct (i <? List.length (items (ocr_list a))) eqn:E.
    + apply Nat.ltb_lt in E. rewrite (remove_nth_spec _ _ E). reflexivity.
    + apply Nat.ltb_ge in E. rewrite (remove_nth_none _ _ E). reflexivity.
  - destruct (selected (bon_items (new_bon_list a))) as [i|]; [|reflexivity].
    destruct (i <? List.length (items (bon_items (new_bon_list a)))) eqn:E.
    + apply Nat.ltb_lt in E. rewrite (remove_nth_spec _ _ E). reflexivity.
    + apply Nat.ltb_ge in E. rewrite (remove_nth_none _ _ E). reflexivity.
Qed.

(* ------------------------------------------------------------------ *)
(** ** NextItem then PreviousItem *)

Lemma list_render_in_range {A} (l : SelList A) (j : nat) :
  selected l = Some j -> j < List.length (items l) -> list_render l = l.
Proof.
  destruct l as [[|x r] sel]; cbn; intros -> H; [lia|].
  apply Nat.ltb_lt in H. cbn in H. rewrite H. reflexivity.
Qed.

Lemma active_list_draw (a : App) (n j : nat) :
  active_list a = Some (n, Some j) -> j < n -> active_list (draw a) = active_list a.
Proof.
  destruct a as [bl cl st db ef il ip nb ob ol of run]; destruct st;
    cbn -[list_render]; intros H Hj; try discriminate;
    injection H as <- Hs; rewrite (list_render_in_range _ j Hs Hj); reflexivity.
Qed.

(** NextItem followed by PreviousItem gives the selection back, on every
    screen with a list, whenever the selected element is not the last
    one (on the last one NextItem stays and PreviousItem moves up). *)
Theorem next_previous_roundtrip (damerau_levenshtein : string -> string -> nat)
  (approx_eq : F64.f64 -> F64.f64 -> bool) (image_to_string : string -> option string)
  (read_ocr_files : list string -> list string) (a : App) (n i : nat) :
  active_list (draw a) = Some (n, Some i) -> S i < n ->
  exists a2 rest,
    run_events damerau_levenshtein approx_eq image_to_string read_ocr_files 2 a
      [NextItem; PreviousItem] = Some (a2, rest)
    /\ active_list a2 = Some (n, Some i).
Proof.
  intros Ha Hi.
  pose proof (navigation_rendered a) as R. rewrite Ha in R.
  destruct R as (_ & (a1 & e1 & H1 & A1) & _).
  assert (E : (i <? n - 1) = true) by (apply Nat.ltb_lt; lia). rewrite E in A1.
  pose proof (navigation_rendered a1) as R1.
  rewrite (active_list_draw a1 n (S i) A1 Hi), A1 in R1.
  destruct R1 as (_ & _ & (a2 & e2 & H2 & A2)).
  assert (E2 : (0 <? S i) = true) by reflexivity. rewrite E2 in A2.
  rewrite run_events_step.
  change (handle_event _ _ _ _ (draw a) NextItem) with (next_item (draw a)). rewrite H1.
  cbn [app]. rewrite run_events_step.
  change (handle_event _ _ _ _ (draw a1) PreviousItem) with (previous_item (draw a1)).
  rewrite H2. cbn [run_events].
  exists a2. eexists. split; [reflexivity|]. rewrite A2. f_equal. f_equal. f_equal. lia.
Qed.

(** Witness of [next_previous_roundtrip]: the draft of [convert_app],
    its first item selected. *)
Lemma next_previous_roundtrip_witness :
  exists a2 rest, Fixtures.run 2 ImportFixtures.convert_app [NextItem; PreviousItem]
                  = Some (a2, rest)
                  /\ active_list a2 = Some (2, Some 0).
Proof.
  exact (next_previous_roundtrip Libs.damerau_levenshtein Libs.approx_eq Libs.image_to_string
           Libs.read_ocr_files ImportFixtures.convert_app 2 0 eq_refl ltac:(lia)).
Defined.

(* ------------------------------------------------------------------ *)
(** ** Adding a category *)






(* ------------------------------------------------------------------ *)
(** ** Opening a receipt from the import list *)

(** The single word character that [strip_single] drops can be an umlaut
    of the OCR whitelist, two bytes in UTF-8: "Milch 2,49" with a space and
    u-umlaut (C3 BC) appended keeps
    "Milch 2,49". *)
Lemma strip_single_umlaut :
  let line := ("Milch 2,49 " ++ String "195" (String "188" ""))%string in
  Classifier.ocr_text_ok (chars line) = true
  /\ Classifier.strip_single line = "Milch 2,49"%string
  /\ Classifier.classify line [] = [mkOcrEntry "Milch 2,49" Entry].
Proof. vm_compute. repeat split. Qed.

(** Enter on the Import screen with the file [f] selected and no OCR
    lines left (as [go_home_state] leaves them), the OCR returning a text
    of the whitelisted characters: the OCR file becomes [import_path]
    joined with [f], and after the events this sends the OCR screen holds
    the classified lines of the recognised text, the
    first one selected when there is one. *)
Theorem import_open_ocr (ta_input : list string -> Key -> list string)
  (ta_clear_line : list string -> list string)
  (ta_insert_str : list string -> string -> list string)
  (f64_to_string : F64.f64 -> string)
  (damerau_levenshtein : string -> string -> nat)
  (approx_eq : F64.f64 -> F64.f64 -> bool) (image_to_string : string -> option string)
  (read_ocr_files : list string -> list string)
  (execute_sql : Database.Database -> string -> option Database.Database)
  (a : App) (i : nat) (f text : string) :
  current_state a = Import ->
  selected (import_list a) = Some i ->
  nth_error (items (import_list a)) i = Some f ->
  items (ocr_list a) = [] ->
  image_to_string (path_join (import_path a) f) = Some text ->
  Classifier.ocr_text_ok (chars text) = true ->
  exists a1 a3,
    handle_key_events ta_input ta_clear_line ta_insert_str f64_to_string execute_sql a KEnter
      = Some (a1, [GoOcrState])
    /\ run_events damerau_levenshtein approx_eq image_to_string read_ocr_files 2 a1
         [GoOcrState] = Some (a3, [])
    /\ current_state a3 = OCR
    /\ ocr_file a3 = path_join (import_path a) f
    /\ items (ocr_list a3) = Classifier.classify text (ocr_blacklist a)
    /\ (Classifier.classify text (ocr_blacklist a) <> [] -> selected (ocr_list a3) = Some 0)
    /\ database a3 = database a.
Proof.
  destruct a as [bl cl st db ef il ip nb ob ol of run]; cbn.
  intros -> Hsel Hf Hol Himg _.
  unfold handle_key_events; cbn. rewrite Hsel, Hf.
  do 2 eexists; split; [reflexivity|].
  cbn. unfold go_ocr_state. cbn. rewrite Hol. cbn.
  unfold perform_ocr. cbn. rewrite Himg. cbn.
  split; [reflexivity|].
  destruct (Classifier.classify text ob) as [|x xs]; destruct (selected ol) as [j|];
    try destruct (j <=? 0); cbn; repeat split; congruence.
Qed.

(** Witness of [import_open_ocr]: [bon.jpg] opened from the Import
    screen, recognised as the receipt text of [Libs]. *)
Lemma import_open_ocr_witness :
  exists a1 a3,
    handle_key_events (fun l _ => l) (fun l => l) (fun l _ => l) (fun _ => ""%string) Libs.execute_sql
      OpenFixtures.import_app KEnter = Some (a1, [GoOcrState])
    /\ run_events Libs.damerau_levenshtein Libs.approx_eq Libs.image_to_string
         Libs.read_ocr_files 2 a1 [GoOcrState] = Some (a3, [])
    /\ current_state a3 = OCR
    /\ ocr_file a3 = path_join "bons" "bon.jpg"
    /\ items (ocr_list a3) = Classifier.classify Libs.scenario_text []
    /\ (Classifier.classify Libs.scenario_text [] <> [] -> selected (ocr_list a3) = Some 0)
    /\ database a3 = Database.empty.
Proof.
  exact (import_open_ocr (fun l _ => l) (fun l => l) (fun l _ => l) (fun _ => ""%string)
           Libs.damerau_levenshtein Libs.approx_eq Libs.image_to_string Libs.read_ocr_files
           Libs.execute_sql OpenFixtures.import_app 0 "bon.jpg" Libs.scenario_text
           eq_refl eq_refl eq_refl eq_refl eq_refl eq_refl).
Defined.

